(** * Bulk image orchestration: a shallow embedding of
      [services/openai_image_service.py] and [tools/image_tools.py].

    The Python code talks to three outside parties: the OpenAI image
    endpoint, the file system and the clock.  They are modelled as
    oracles whose answers may depend on everything that happened so
    far; every side effect is appended to a trace.  Python exceptions
    are the left summand of the result; the trace survives a raise. *)

From Stdlib Require Import String Ascii List Arith ZArith Lia Bool.
From Stdlib Require Import Permutation Sorted DecimalString DecimalNat.
Import ListNotations.
Local Open Scope string_scope.

(* ================================================================= *)
(** ** Strings: the few pieces of Python's [str] the code relies on *)

Module PyStr.

(** [s.rfind("/")]: position of the last slash, if any. *)
Fixpoint rfind_slash (s : string) : option nat :=
  match s with
  | EmptyString => None
  | String c s' =>
      match rfind_slash s' with
      | Some k => Some (S k)
      | None => if Ascii.eqb c "/" then Some 0 else None
      end
  end.

(** [s.rsplit("/", 1)[0]]: the text before the last slash, the whole
    string when there is none. *)
Definition rsplit_slash_head (s : string) : string :=
  match rfind_slash s with
  | Some k => substring 0 k s
  | None => s
  end.

Fixpoint all_slashes (s : string) : bool :=
  match s with
  | EmptyString => true
  | String c s' => Ascii.eqb c "/" && all_slashes s'
  end.

(** [head.rstrip("/")]. *)
Fixpoint rstrip_slash (s : string) : string :=
  match s with
  | EmptyString => EmptyString
  | String c s' =>
      if all_slashes (String c s') then EmptyString
      else String c (rstrip_slash s')
  end.

(** [os.path.dirname] of posixpath:
    [i = p.rfind('/') + 1; head = p[:i];
     if head and head != '/'*len(head): head = head.rstrip('/')]. *)
Definition dirname (p : string) : string :=
  let head := match rfind_slash p with
              | Some k => substring 0 (S k) p
              | None => EmptyString
              end in
  if all_slashes head then head else rstrip_slash head.

Fixpoint ends_with_slash (s : string) : bool :=
  match s with
  | EmptyString => false
  | String c EmptyString => Ascii.eqb c "/"
  | String _ s' => ends_with_slash s'
  end.

Fixpoint zeros (n : nat) : string :=
  match n with
  | O => EmptyString
  | S n' => String "0" (zeros n')
  end.

(** [str(n)] for a non-negative integer. *)
Definition str_of_nat (n : nat) : string :=
  NilEmpty.string_of_uint (Nat.to_uint n).

(** [f"{i:03d}"]: decimal, padded with zeros on the left up to width
    three, never truncated. *)
Definition fmt_03d (i : nat) : string :=
  let s := str_of_nat i in
  zeros (3 - String.length s) ++ s.

End PyStr.

(* ================================================================= *)
(** ** Paths *)

(** A [pathlib.Path] is represented by its [str()]. *)
Definition Path := string.

(** [str(d / name)] for a [name] that is a plain file name: pathlib
    drops a lone ["."] and does not double the slash of a root. *)
Definition path_div (d : Path) (name : string) : Path :=
  if String.eqb d "." then name
  else if PyStr.ends_with_slash d then d ++ name
  else d ++ "/" ++ name.

(** [f"image_{i:03d}.png"] and [f"edited_image_{i:03d}.png"]. *)
Definition file_name (prefix : string) (i : nat) : string :=
  prefix ++ "_" ++ PyStr.fmt_03d i ++ ".png".

(** [str(session_dir / f"{prefix}_{i:03d}.png")]. *)
Definition path_for (session_dir : Path) (prefix : string) (i : nat) : string :=
  path_div session_dir (file_name prefix i).


(* ================================================================= *)
(** ** Effects: exceptions, the trace, the outside world *)

(** A Python exception that [except Exception] catches: its class and
    [str(e)]. *)
Record Exn := mkExn { exn_class : string; exn_str : string }.

Definition Bytes := list Byte.byte.

(** A file object is identified by the length of the trace at the
    moment it was opened. *)
Definition Handle := nat.

Inductive Event :=
| ApiGenerate (model prompt : string)
    (* client.images.generate(model=, prompt=) was invoked *)
| ApiEdit (model prompt : string) (images : list Handle)
    (* client.images.edit(model=, image=, prompt=) was invoked *)
| FsOpen (h : Handle) (path mode : string)
| FsClose (h : Handle)
| FsWrite (h : Handle) (data : Bytes)
| FsMakedirs (path : string).

Definition Trace := list Event.

(** The answers of the outside world.  [None] is "no exception". *)
Record World := mkWorld {
  api_generate : Trace -> string -> string -> Exn + string;
    (* model, prompt; the answer is result.data[0].b64_json *)
  api_edit : Trace -> string -> list Handle -> string -> Exn + string;
  b64decode : string -> Exn + Bytes;
  fs_open : Trace -> string -> string -> option Exn;
  fs_write : Trace -> Handle -> Bytes -> option Exn;
  fs_exists : Trace -> string -> bool;
  fs_makedirs : Trace -> string -> option Exn;
  clock : Trace -> string;
    (* datetime.now().strftime("%Y%m%d_%H%M%S") *)
  path_norm : string -> Path
    (* str(Path(s)) *)
}.

(** A computation reads and extends the trace and either raises or
    returns. *)
Definition M (A : Type) : Type := Trace -> (Exn + A) * Trace.

Definition ret {A} (a : A) : M A := fun tr => (inr a, tr).

Definition raise {A} (e : Exn) : M A := fun tr => (inl e, tr).

Definition bind {A B} (m : M A) (k : A -> M B) : M B :=
  fun tr =>
    match m tr with
    | (inr a, tr') => k a tr'
    | (inl e, tr') => (inl e, tr')
    end.

(** [try: m  except Exception as e: h e]. *)
Definition try_except {A} (m : M A) (h : Exn -> M A) : M A :=
  fun tr =>
    match m tr with
    | (inr a, tr') => (inr a, tr')
    | (inl e, tr') => h e tr'
    end.

(** [try: m  finally: c].  An exception raised by the clean-up
    replaces the outcome of the body. *)
Definition try_finally {A} (m : M A) (c : M unit) : M A :=
  fun tr =>
    match m tr with
    | (r, tr') =>
        match c tr' with
        | (inr _, tr'') => (r, tr'')
        | (inl e, tr'') => (inl e, tr'')
        end
    end.

Declare Scope py_scope.
Delimit Scope py_scope with py.
Notation "x <- m ;; k" := (bind m (fun x => k))
  (at level 61, m at next level, right associativity) : py_scope.
Notation "m ;;; k" := (bind m (fun _ => k))
  (at level 61, right associativity) : py_scope.
Local Open Scope py_scope.

Definition emit (e : Event) : M unit := fun tr => (inr tt, (tr ++ [e])%list).

(** A list comprehension or a [for] loop whose body may raise: the
    elements are visited from left to right and the first exception
    ends the loop. *)
Fixpoint for_each {A B} (f : A -> M B) (l : list A) : M (list B) :=
  match l with
  | [] => ret []
  | a :: l' => b <- f a ;; bs <- for_each f l' ;; ret (b :: bs)
  end.

(** Python truthiness of an [Optional[str]]. *)
Definition truthy (o : option string) : option string :=
  match o with
  | Some s => if String.eqb s "" then None else Some s
  | None => None
  end.

(* ================================================================= *)
(** ** services/openai_image_service.py *)

Module ImageService.

Section Program.

Variable W : World.

(** *** Primitive operations *)

Definition images_generate (model prompt : string) : M string :=
  fun tr =>
    (api_generate W tr model prompt, (tr ++ [ApiGenerate model prompt])%list).

Definition images_edit (model : string) (images : list Handle)
    (prompt : string) : M string :=
  fun tr =>
    (api_edit W tr model images prompt,
     (tr ++ [ApiEdit model prompt images])%list).

Definition base64_b64decode (s : string) : M Bytes :=
  fun tr => (b64decode W s, tr).

(** [open(path, mode)]. *)
Definition py_open (path mode : string) : M Handle :=
  fun tr =>
    match fs_open W tr path mode with
    | Some e => (inl e, tr)
    | None =>
        let h := List.length tr in
        (inr h, (tr ++ [FsOpen h path mode])%list)
    end.

Definition py_close (h : Handle) : M unit := emit (FsClose h).

(** [f.write(data)]. *)
Definition py_write (h : Handle) (data : Bytes) : M unit :=
  fun tr =>
    match fs_write W tr h data with
    | Some e => (inl e, tr)
    | None => (inr tt, (tr ++ [FsWrite h data])%list)
    end.

(** [os.makedirs(path, exist_ok=True)] and
    [Path.mkdir(parents=True, exist_ok=True)]. *)
Definition makedirs (path : string) : M unit :=
  fun tr =>
    match fs_makedirs W tr path with
    | Some e => (inl e, tr)
    | None => (inr tt, (tr ++ [FsMakedirs path])%list)
    end.

Definition os_path_exists (path : string) : M bool :=
  fun tr => (inr (fs_exists W tr path), tr).

(** *** OpenAIImageService *)

Record OpenAIImageService := mkService { max_workers : Z }.

(** [__init__]: [self.max_workers = min(max_workers, 10)]. *)
Definition init (max_workers : Z) : OpenAIImageService :=
  mkService (Z.min max_workers 10).

Definition default_model : string := "gpt-image-1".

(** [generate_image].  Saving is
    [with open(output_path, "wb") as f: f.write(image_bytes)]. *)
Definition generate_image (prompt model : string)
    (output_path : option string) : M (string + Bytes) :=
  image_base64 <- images_generate model prompt ;;
  image_bytes <- base64_b64decode image_base64 ;;
  match truthy output_path with
  | Some p =>
      makedirs (PyStr.dirname p) ;;;
      f <- py_open p "wb" ;;
      try_finally (py_write f image_bytes) (py_close f) ;;;
      ret (inl p)
  | None => ret (inr image_bytes)
  end.

(** [edit_image].  The images are opened by a list comprehension that
    stands before the [try]; the [finally] closes what that list
    holds. *)
Definition edit_image (prompt : string) (image_paths : list string)
    (model : string) (output_path : option string) : M (string + Bytes) :=
  images <- for_each (fun path => py_open path "rb") image_paths ;;
  try_finally
    (image_base64 <- images_edit model images prompt ;;
     image_bytes <- base64_b64decode image_base64 ;;
     match truthy output_path with
     | Some p =>
         makedirs (PyStr.dirname p) ;;;
         f <- py_open p "wb" ;;
         try_finally (py_write f image_bytes) (py_close f) ;;;
         ret (inl p)
     | None => ret (inr image_bytes)
     end)
    (for_each py_close images ;;; ret tt).

(** [_generate_session_directory]. *)
Definition _generate_session_directory : M Path :=
  fun tr =>
    let session_dir := "generated_images/session_" ++ clock W tr in
    (makedirs session_dir ;;; ret session_dir) tr.

(** The per-task record [{"index", "success", "output_path", "error"}]. *)
Record TaskResult := mkResult {
  index : nat;
  success : bool;
  output_path : option string;
  error : option string
}.

Definition ok_result (i : nat) (p : string) : TaskResult :=
  mkResult i true (Some p) None.

Definition failed_result (i : nat) (e : Exn) : TaskResult :=
  mkResult i false None (Some (exn_str e)).

(** Task tuples: [(prompt, model, index, output_path)] for generation
    and [(prompt, image_paths, index, output_path)] for editing. *)
Definition GenTask : Type := string * string * nat * string.
Definition EditTask : Type := string * list string * nat * string.

Definition gen_task_index (t : GenTask) : nat :=
  let '(_, _, i, _) := t in i.
Definition edit_task_index (t : EditTask) : nat :=
  let '(_, _, i, _) := t in i.

Definition _worker_generate_image (args : GenTask) : M TaskResult :=
  let '(prompt, model, index, output_path) := args in
  try_except
    (_ <- generate_image prompt model (Some output_path) ;;
     ret (ok_result index output_path))
    (fun e => ret (failed_result index e)).

(** The inner call names no model, so [edit_image] runs with its
    default. *)
Definition _worker_edit_image (args : EditTask) : M TaskResult :=
  let '(prompt, image_paths, index, output_path) := args in
  try_except
    (_ <- edit_image prompt image_paths default_model (Some output_path) ;;
     ret (ok_result index output_path))
    (fun e => ret (failed_result index e)).

(** [results.sort(key=lambda x: x["index"])]: a stable sort. *)
Fixpoint insert_by_index (r : TaskResult) (l : list TaskResult)
    : list TaskResult :=
  match l with
  | [] => [r]
  | x :: l' =>
      if (index r <=? index x)%nat then r :: x :: l'
      else x :: insert_by_index r l'
  end.

Definition sort_by_index (l : list TaskResult) : list TaskResult :=
  fold_right insert_by_index [] l.

(** [enumerate]. *)
Fixpoint enumerate_from {A} (k : nat) (l : list A) : list (nat * A) :=
  match l with
  | [] => []
  | a :: l' => (k, a) :: enumerate_from (S k) l'
  end.

Definition enumerate {A} (l : list A) : list (nat * A) := enumerate_from 0 l.

(** [output_dir if output_dir else self._generate_session_directory()],
    followed by [session_dir.mkdir(parents=True, exist_ok=True)].  A
    [Path] object is always true. *)
Definition resolve_session_dir (output_dir : option Path) : M Path :=
  session_dir <- match output_dir with
                 | Some d => ret d
                 | None => _generate_session_directory
                 end ;;
  makedirs session_dir ;;;
  ret session_dir.

(** [ThreadPoolExecutor(max_workers=n)] refuses a pool without
    workers. *)
Definition thread_pool (n : Z) : M unit :=
  if (n <=? 0)%Z
  then raise (mkExn "ValueError" "max_workers must be greater than 0")
  else ret tt.

Section Bulk.

(** The order in which [as_completed] hands the futures back; it is
    the scheduler's choice.  Each worker is run to its end in that
    order.  The real tasks overlap: the trace of a batch fixes the
    order of the events of one task, not the order of events of
    different tasks, and nothing below is stated about the latter. *)
Variable as_completed : forall T : Type, list T -> list T.

(** Submit everything, then collect in completion order.  The body of
    the collecting loop converts an exception of [future.result()]
    into a failed record for that task's index. *)
Definition run_pool {T} (svc : OpenAIImageService)
    (worker : T -> M TaskResult) (task_index : T -> nat)
    (tasks : list T) : M (list TaskResult) :=
  thread_pool (max_workers svc) ;;;
  for_each
    (fun task =>
       try_except (worker task)
         (fun exc => ret (failed_result (task_index task) exc)))
    (as_completed T tasks).

Definition gen_tasks (session_dir : Path) (model : string)
    (prompts : list string) : list GenTask :=
  map (fun '(i, prompt) => (prompt, model, i, path_for session_dir "image" i))
      (enumerate prompts).

Definition bulk_generate_images (svc : OpenAIImageService)
    (prompts : list string) (model : string) (output_dir : option Path)
    : M (list TaskResult) :=
  session_dir <- resolve_session_dir output_dir ;;
  let tasks := gen_tasks session_dir model prompts in
  results <- run_pool svc _worker_generate_image gen_task_index tasks ;;
  ret (sort_by_index results).

Definition edit_tasks (session_dir : Path)
    (prompts : list string) (image_paths_list : list (list string))
    : list EditTask :=
  map (fun '(i, (prompt, img_paths)) =>
         (prompt, img_paths, i, path_for session_dir "edited_image" i))
      (enumerate (combine prompts image_paths_list)).

Definition bulk_edit_images (svc : OpenAIImageService)
    (prompts : list string) (image_paths_list : list (list string))
    (model : string) (output_dir : option Path) : M (list TaskResult) :=
  if negb (List.length prompts =? List.length image_paths_list)%nat
  then raise (mkExn "ValueError"
                "Number of prompts must match number of image path lists")
  else
    session_dir <- resolve_session_dir output_dir ;;
    let tasks := edit_tasks session_dir prompts image_paths_list in
    results <- run_pool svc _worker_edit_image edit_task_index tasks ;;
    ret (sort_by_index results).

End Bulk.

End Program.

End ImageService.

(* ================================================================= *)
(** ** tools/image_tools.py *)

Module ImageTools.

Record GenerateImageInput := mkGenerateImageInput {
  gi_prompt : string;
  gi_output_path : option string;
  gi_model : string
}.

Record EditImageInput := mkEditImageInput {
  ei_prompt : string;
  ei_image_paths : list string;
  ei_output_path : option string;
  ei_model : string
}.

Record BulkGenerateImagesInput := mkBulkGenerateImagesInput {
  bg_prompts : list string;
  bg_output_dir : option string;
  bg_model : string
}.

Record BulkEditImagesInput := mkBulkEditImagesInput {
  be_prompts : list string;
  be_image_paths_list : list (list string);
  be_output_dir : option string;
  be_model : string
}.

(** The dictionary a bulk tool returns on its normal path. *)
Record Manifest := mkManifest {
  success : bool;
  results : list ImageService.TaskResult;
  output_paths : list (option string);
  session_dir : option string;
  message : string
}.

Inductive ToolResult :=
| ToolError (error : string)
    (* {"success": False, "error": ...} *)
| ToolSaved (output_path message : string)
    (* {"success": True, "output_path": ..., "message": ...} *)
| ToolManifest (m : Manifest).

(** [image_service = OpenAIImageService()]. *)
Definition image_service : ImageService.OpenAIImageService :=
  ImageService.init 10.

(** [str(x)] of an [Optional[str]]. *)
Definition py_str (o : option string) : string :=
  match o with
  | Some s => s
  | None => "None"
  end.

(** [str(output_dir_path) if output_dir_path
     else str(results[0]["output_path"]).rsplit("/", 1)[0]
          if results and results[0]["success"] else None]. *)
Definition reported_session_dir (output_dir_path : option Path)
    (results : list ImageService.TaskResult) : option string :=
  match output_dir_path with
  | Some d => Some d
  | None =>
      match results with
      | r :: _ =>
          if ImageService.success r
          then Some (PyStr.rsplit_slash_head
                       (py_str (ImageService.output_path r)))
          else None
      | [] => None
      end
  end.

(** [[result["output_path"] for result in results if result["success"]]]. *)
Definition successful_paths (results : list ImageService.TaskResult)
    : list (option string) :=
  map ImageService.output_path (filter ImageService.success results).

Definition manifest (verb : string) (n_requested : nat)
    (output_dir_path : option Path)
    (results : list ImageService.TaskResult) : Manifest :=
  let paths := successful_paths results in
  mkManifest
    (forallb ImageService.success results)
    results
    paths
    (reported_session_dir output_dir_path results)
    (verb ++ " " ++ PyStr.str_of_nat (List.length paths)
          ++ " images out of " ++ PyStr.str_of_nat n_requested
          ++ " requested").

Section Program.

Variable W : World.
Variable as_completed : forall T : Type, list T -> list T.

(** [Path(output_dir) if output_dir else None]. *)
Definition to_path (output_dir : option string) : option Path :=
  match truthy output_dir with
  | Some d => Some (path_norm W d)
  | None => None
  end.

(** The first path of the list that [os.path.exists] denies. *)
Fixpoint first_missing (paths : list string) : M (option string) :=
  match paths with
  | [] => ret None
  | path :: rest =>
      b <- ImageService.os_path_exists W path ;;
      if b then first_missing rest else ret (Some path)
  end.

(** The same over [enumerate(image_paths_list)]. *)
Fixpoint first_missing_indexed (l : list (nat * list string))
    : M (option (nat * string)) :=
  match l with
  | [] => ret None
  | (i, paths) :: rest =>
      m <- first_missing paths ;;
      match m with
      | Some path => ret (Some (i, path))
      | None => first_missing_indexed rest
      end
  end.

(** [generate_image].  Without an output path the function would
    name the file after [time.time()], but the module never imports
    [time]. *)
Definition generate_image (input_data : GenerateImageInput) : M ToolResult :=
  output_path <-
    match truthy (gi_output_path input_data) with
    | Some p => ret p
    | None =>
        ImageService.makedirs W "generated_images" ;;;
        raise (mkExn "NameError" "name 'time' is not defined")
    end ;;
  ImageService.generate_image W (gi_prompt input_data)
    (gi_model input_data) (Some output_path) ;;;
  ret (ToolSaved output_path
         ("Image generated and saved to " ++ output_path)).

(** [edit_image].  The module never imports [time], so the branch
    that makes up an output path raises [NameError]. *)
Definition edit_image (input_data : EditImageInput) : M ToolResult :=
  output_path <-
    match truthy (ei_output_path input_data) with
    | Some p => ret p
    | None =>
        ImageService.makedirs W "generated_images" ;;;
        raise (mkExn "NameError" "name 'time' is not defined")
    end ;;
  missing <- first_missing (ei_image_paths input_data) ;;
  match missing with
  | Some path => ret (ToolError ("Source image not found: " ++ path))
  | None =>
      ImageService.edit_image W (ei_prompt input_data)
        (ei_image_paths input_data) (ei_model input_data)
        (Some output_path) ;;;
      ret (ToolSaved output_path
             ("Image edited and saved to " ++ output_path))
  end.

Definition bulk_generate_images (input_data : BulkGenerateImagesInput)
    : M ToolResult :=
  let output_dir_path := to_path (bg_output_dir input_data) in
  results <- ImageService.bulk_generate_images W as_completed image_service
               (bg_prompts input_data) (bg_model input_data)
               output_dir_path ;;
  ret (ToolManifest
         (manifest "Generated" (List.length (bg_prompts input_data))
            output_dir_path results)).

Definition bulk_edit_images (input_data : BulkEditImagesInput)
    : M ToolResult :=
  let output_dir_path := to_path (be_output_dir input_data) in
  missing <- first_missing_indexed
               (ImageService.enumerate (be_image_paths_list input_data)) ;;
  match missing with
  | Some (i, path) =>
      ret (ToolError ("Source image not found at prompt index "
                        ++ PyStr.str_of_nat i ++ ": " ++ path))
  | None =>
      results <- ImageService.bulk_edit_images W as_completed image_service
                   (be_prompts input_data) (be_image_paths_list input_data)
                   (be_model input_data) output_dir_path ;;
      ret (ToolManifest
             (manifest "Edited" (List.length (be_prompts input_data))
                output_dir_path results))
  end.

End Program.

End ImageTools.

(* ================================================================= *)
(** ** tools/story_tools.py *)

Module StoryTools.

Record StoryToMemePromptInput := mkStoryToMemePromptInput {
  story : string;
  num_memes : Z;
  meme_style : string;
  word_limit : Z
}.

Record PromptsResult := mkPromptsResult {
  success : bool;
  prompts : list string;
  story_analysis : string;
  message : string
}.

(** [str(n)] for an integer. *)
Definition str_of_int (n : Z) : string :=
  NilZero.string_of_int (Z.to_int n).

(** [range(n)]: empty when [n] is not positive. *)
Definition range (n : Z) : list nat := seq 0 (Z.to_nat n).

Definition create_meme_prompts (input_data : StoryToMemePromptInput)
    : PromptsResult :=
  mkPromptsResult
    true
    (map (fun i => "Meme " ++ PyStr.str_of_nat (i + 1)
                     ++ " prompt would be generated here")
         (range (num_memes input_data)))
    "Analysis of the story flow and key moments"
    ("Generated " ++ str_of_int (num_memes input_data)
       ++ " meme prompts in " ++ meme_style input_data ++ " style").

End StoryTools.

(* ================================================================= *)
(** ** agent.py *)

Module Agent.

Inductive Status := InProgress | Complete | Error.

(** The [metadata] dictionary; every key the module ever writes is a
    field, absent until written. *)
Record Metadata := mkMetadata {
  start_time : option string;
  story_length : option nat;
  analysis_complete : option bool;
  num_prompts : option nat;
  md_session_dir : option (option string);
  images_generated : option nat;
  completion_time : option string;
  error_time : option string
}.

Record ToolCall := mkToolCall {
  tc_id : string;
  tc_name : string;
  tc_input_data : ImageTools.BulkGenerateImagesInput
}.

Record ToolMsg := mkToolMsg { tm_name : string; tm_content : string }.

Inductive Message :=
| DictMessage (role content : string)
| AIMessage (content : string) (tool_calls : list ToolCall)
| ToolMessage (m : ToolMsg).

Record AgentState := mkAgentState {
  story : string;
  messages : list Message;
  meme_prompts : list string;
  image_paths : list (option string);
  metadata : Metadata;
  status : Status;
  error : option string
}.

(** [{**state, "status": "error", "error": msg}]. *)
Definition with_error (state : AgentState) (msg : string) : AgentState :=
  mkAgentState (story state) (messages state) (meme_prompts state)
    (image_paths state) (metadata state) Error (Some msg).

(** What [json.loads(tool_message.content)] followed by the first
    [result.get] can give: a decoding error, a value without [get],
    or one of the dictionaries the image tools return. *)
Inductive Decoded :=
| JSONDecodeError (e : Exn)
| AttributeError (e : Exn)
| ToolDict (result : ImageTools.ToolResult).

(** [result.get("success")], [result.get("error", default)],
    [result.get("output_paths", [])], [result.get("session_dir")]. *)
Definition get_success (result : ImageTools.ToolResult) : bool :=
  match result with
  | ImageTools.ToolError _ => false
  | ImageTools.ToolSaved _ _ => true
  | ImageTools.ToolManifest m => ImageTools.success m
  end.

Definition get_error (result : ImageTools.ToolResult) (default : string)
    : string :=
  match result with
  | ImageTools.ToolError e => e
  | _ => default
  end.

Definition get_output_paths (result : ImageTools.ToolResult)
    : list (option string) :=
  match result with
  | ImageTools.ToolManifest m => ImageTools.output_paths m
  | _ => []
  end.

Definition get_session_dir (result : ImageTools.ToolResult)
    : option string :=
  match result with
  | ImageTools.ToolManifest m => ImageTools.session_dir m
  | _ => None
  end.

(** The outcome of a node that may end the run:
    [{"__end__": state}] or a state. *)
Inductive NodeOutput :=
| EndWith (state : AgentState)
| Continue (state : AgentState).

(** [generate_meme_images]; [stamp] is
    [datetime.now().strftime('%Y%m%d%H%M%S')]. *)
Definition generate_meme_images (stamp : string) (state : AgentState)
    : NodeOutput :=
  match meme_prompts state with
  | [] =>
      EndWith (with_error state
                 "No meme prompts were generated from the story analysis.")
  | _ =>
      let tool_call :=
        mkToolCall ("call_" ++ stamp) "bulk_generate_images"
          (ImageTools.mkBulkGenerateImagesInput (meme_prompts state) None
             "gpt-image-1") in
      let ai_message :=
        AIMessage "I'll generate meme images based on these prompts."
                  [tool_call] in
      Continue
        (mkAgentState (story state) (messages state ++ [ai_message])%list
           (meme_prompts state) (image_paths state) (metadata state)
           (status state) (error state))
  end.

Section Nodes.

Variable json_loads : string -> Decoded.

(** [process_image_results]; [now] is
    [datetime.now().strftime("%Y-%m-%d %H:%M:%S")]. *)
Definition process_image_results (now : string) (state : AgentState)
    (tool_messages : list ToolMsg) : AgentState :=
  match tool_messages with
  | [] => with_error state "No response received from image generation tool"
  | tool_message :: _ =>
      match json_loads (tm_content tool_message) with
      | JSONDecodeError e | AttributeError e =>
          with_error state ("Failed to parse tool response: " ++ exn_str e)
      | ToolDict result =>
          if negb (get_success result)
          then with_error state
                 ("Failed to generate images: "
                    ++ get_error result "Unknown error")
          else
            let image_paths := get_output_paths result in
            let session_dir := get_session_dir result in
            let md := metadata state in
            mkAgentState (story state) (messages state) (meme_prompts state)
              image_paths
              (mkMetadata (start_time md) (story_length md)
                 (analysis_complete md) (num_prompts md)
                 (Some session_dir) (Some (List.length image_paths))
                 (Some now) (error_time md))
              Complete (error state)
      end
  end.

(** The wrapper registered as the graph node: without explicit
    messages it picks the messages of the state that carry the name
    of the bulk tool. *)
Definition named_bulk (msg : Message) : option ToolMsg :=
  match msg with
  | ToolMessage m =>
      if String.eqb (tm_name m) "bulk_generate_images" then Some m else None
  | _ => None
  end.

Fixpoint tool_messages_of (msgs : list Message) : list ToolMsg :=
  match msgs with
  | [] => []
  | msg :: rest =>
      match named_bulk msg with
      | Some m => m :: tool_messages_of rest
      | None => tool_messages_of rest
      end
  end.

Definition process_image_results_mapping (now : string)
    (state : AgentState) (messages_arg : option (list ToolMsg))
    : AgentState :=
  match messages_arg with
  | None => process_image_results now state
              (tool_messages_of (messages state))
  | Some msgs => process_image_results now state msgs
  end.

(** [handle_error]. *)
Definition handle_error (now : string) (state : AgentState) : AgentState :=
  let md := metadata state in
  mkAgentState (story state) (messages state) (meme_prompts state)
    (image_paths state)
    (mkMetadata (start_time md) (story_length md) (analysis_complete md)
       (num_prompts md) (md_session_dir md) (images_generated md)
       (completion_time md) (Some now))
    Error (error state).

End Nodes.

Section Fallback.

(** [len(part.strip()) > 20]. *)
Variable substantive : string -> bool.

(** The fallback of [analyze_story], taken when the answer holds no
    bracketed JSON: first the loop over the parts of
    [response_content.split] at blank lines ... *)
Fixpoint collect_parts (parts : list string) (meme_prompts : list string)
    : list string :=
  match parts with
  | [] => meme_prompts
  | part :: rest =>
      if (9 <=? List.length meme_prompts)%nat then meme_prompts
      else if substantive part
           then collect_parts rest (meme_prompts ++ [part])%list
           else collect_parts rest meme_prompts
  end.

(** ... and [while len(meme_prompts) < 9: meme_prompts.append(...)].
    The loop body runs at most nine times. *)
Fixpoint fill_generic (fuel : nat) (meme_prompts : list string)
    : list string :=
  match fuel with
  | O => meme_prompts
  | S fuel' =>
      if (List.length meme_prompts <? 9)%nat
      then
        let placeholder :=
          "Generic meme scene "
            ++ PyStr.str_of_nat (List.length meme_prompts + 1) in
        fill_generic fuel' (meme_prompts ++ [placeholder])%list
      else meme_prompts
  end.

Definition fallback_prompts (parts : list string) : list string :=
  fill_generic 9 (collect_parts parts []).

End Fallback.

End Agent.

(* ================================================================= *)
(** ** Observations on a trace *)

Definition is_api_call (e : Event) : bool :=
  match e with
  | ApiGenerate _ _ | ApiEdit _ _ _ => true
  | _ => false
  end.

(** Number of requests sent to the image endpoint. *)
Definition backend_calls (tr : Trace) : nat :=
  List.length (filter is_api_call tr).

Definition closes (h : Handle) (e : Event) : bool :=
  match e with
  | FsClose h' => Nat.eqb h h'
  | _ => false
  end.

(** Handles opened in [tr] and not closed in it. *)
Fixpoint open_handles (tr : Trace) : list Handle :=
  match tr with
  | [] => []
  | FsOpen h _ _ :: tr' =>
      if existsb (closes h) tr' then open_handles tr'
      else h :: open_handles tr'
  | _ :: tr' => open_handles tr'
  end.

(** The models named by the edit requests of a trace. *)
Fixpoint edit_models (tr : Trace) : list string :=
  match tr with
  | [] => []
  | ApiEdit model _ _ :: tr' => model :: edit_models tr'
  | _ :: tr' => edit_models tr'
  end.

(* ================================================================= *)
(** ** Scenarios: concrete worlds on which the code is run *)

Definition png_bytes : Bytes := [Byte.x89; Byte.x50; Byte.x4e; Byte.x47].

Definition rate_limited : Exn := mkExn "RateLimitError" "rate limited".

Definition no_such_file (path : string) : Exn :=
  mkExn "FileNotFoundError"
        ("[Errno 2] No such file or directory: '" ++ path ++ "'").

Definition permission_denied (path : string) : Exn :=
  mkExn "PermissionError"
        ("[Errno 13] Permission denied: '" ++ path ++ "'").

(** The endpoint refuses the prompt ["a dog meme"]; the file
    ["missing.png"] does not exist and ["locked.png"] exists but
    cannot be read; everything else works.  The clock stands at
    2024-01-01 12:00:00. *)
Definition studio : World :=
  mkWorld
    (fun _ _ prompt =>
       if String.eqb prompt "a dog meme" then inl rate_limited
       else inr "iVBORw==")
    (fun _ _ _ prompt =>
       if String.eqb prompt "a dog meme" then inl rate_limited
       else inr "iVBORw==")
    (fun _ => inr png_bytes)
    (fun _ path _ =>
       if String.eqb path "missing.png" then Some (no_such_file path)
       else if String.eqb path "locked.png"
            then Some (permission_denied path)
            else None)
    (fun _ _ _ => None)
    (fun _ path => negb (String.eqb path "missing.png"))
    (fun _ _ => None)
    (fun _ => "20240101_120000")
    (fun s => s).

(** A scheduler under which the last submitted task finishes first. *)
Definition last_first : forall T : Type, list T -> list T :=
  fun T l => rev l.

(** A scheduler under which tasks finish in submission order. *)
Definition in_order : forall T : Type, list T -> list T :=
  fun T l => l.

(* ================================================================= *)
(** ** Vocabulary of the statements *)

(** A result list holds one record per submitted task, in submission
    order. *)
Definition in_submission_order (n : nat)
    (rs : list ImageService.TaskResult) : Prop :=
  List.length rs = n
  /\ (forall i, In i (map ImageService.index rs) <-> i < n)
  /\ StronglySorted lt (map ImageService.index rs).


(** [output_paths] of a manifest lists the files of the successful
    tasks of a batch written into [d], in ascending index order, and
    no file of a failed task. *)
Definition lists_successes (d : Path) (prefix : string)
    (m : ImageTools.Manifest) : Prop :=
  let wins := filter ImageService.success (ImageTools.results m) in
  ImageTools.output_paths m = map ImageService.output_path wins
  /\ ImageTools.output_paths m
     = map (fun r => Some (path_for d prefix (ImageService.index r))) wins
  /\ StronglySorted lt (map ImageService.index wins)
  /\ forall r, In r (ImageTools.results m) ->
       (In (Some (path_for d prefix (ImageService.index r)))
           (ImageTools.output_paths m)
        <-> ImageService.success r = true).

(** Reading a padded number back. *)
Definition read_nat (s : string) : option nat :=
  option_map Nat.of_uint (NilEmpty.uint_of_string s).

(** What [path_div] puts in front of the file name. *)
Definition dir_prefix (d : Path) : string :=
  if String.eqb d "." then ""
  else if PyStr.ends_with_slash d then d
  else d ++ "/".

(** The part of a file name that varies with the index. *)
Definition padded (i : nat) : string := PyStr.fmt_03d i ++ ".png".

Definition index_le (a b : ImageService.TaskResult) : Prop :=
  ImageService.index a <= ImageService.index b.

(** The record a task with index [i] and output path [o] may produce. *)
Definition answers (i : nat) (o : string) (r : ImageService.TaskResult)
    : Prop :=
  r = ImageService.ok_result i o
  \/ exists e, r = ImageService.failed_result i e.

(** What a batch written into [d] under [prefix] may contain. *)
Definition batch_record (d : Path) (prefix : string)
    (r : ImageService.TaskResult) : Prop :=
  answers (ImageService.index r)
          (path_for d prefix (ImageService.index r)) r.

(** What the manifest of a batch of [n] tasks that allocated its own
    directory [d] reports as [session_dir].  The list of records is
    that of the tasks 0, ..., n-1 in this order, so its head is the
    record of the first task of the batch. *)
Definition reports_by_first_task (d : Path) (prefix stamp : string)
    (n : nat) (m : ImageTools.Manifest) : Prop :=
  d = "generated_images/session_" ++ stamp
  /\ map ImageService.index (ImageTools.results m) = seq 0 n
  /\ (n = 0 -> ImageTools.session_dir m = None)
  /\ (0 < n ->
      exists first rest,
        ImageTools.results m = first :: rest
        /\ ImageService.index first = 0
        /\ (ImageService.success first = false ->
            ImageTools.session_dir m = None)
        /\ (ImageService.success first = true ->
            ImageService.output_path first = Some (path_for d prefix 0)
            /\ ImageTools.session_dir m
               = Some (PyStr.rsplit_slash_head (path_for d prefix 0))
            /\ (PyStr.ends_with_slash stamp = false ->
                ImageTools.session_dir m = Some d))).

(** The requests of a trace, in the order they were sent. *)
Definition requests (tr : Trace) : list Event := filter is_api_call tr.

(** Going from [tr] to [tr'] left no file open that was not open
    before. *)
Definition nothing_left_open (tr tr' : Trace) : Prop :=
  incl (open_handles tr') (open_handles tr).

(** The events of a list comprehension that opens [paths] for
    reading, the first one on a trace of length [n]. *)
Fixpoint open_events (n : nat) (paths : list string) : Trace :=
  match paths with
  | [] => []
  | path :: rest => FsOpen n path "rb" :: open_events (S n) rest
  end.

Definition gen_task_prompt (t : ImageService.GenTask) : string :=
  let '(prompt, _, _, _) := t in prompt.

Definition gen_task_model (t : ImageService.GenTask) : string :=
  let '(_, model, _, _) := t in model.

(** The [try] block of [edit_image], for the opened [images]. *)
Definition edit_body (W : World) (prompt model : string)
    (images : list Handle) (output_path : option string)
    : M (string + Bytes) :=
  (image_base64 <- ImageService.images_edit W model images prompt ;;
   image_bytes <- ImageService.base64_b64decode W image_base64 ;;
   match truthy output_path with
   | Some p =>
       ImageService.makedirs W (PyStr.dirname p) ;;;
       f <- ImageService.py_open W p "wb" ;;
       try_finally (ImageService.py_write W f image_bytes)
                   (ImageService.py_close f) ;;;
       ret (inl p)
   | None => ret (inr image_bytes)
   end)%py.

(** The body of the loop that collects the futures of a batch. *)
Definition collect_generate (W : World) (t : ImageService.GenTask)
    : M ImageService.TaskResult :=
  try_except (ImageService._worker_generate_image W t)
    (fun exc =>
       ret (ImageService.failed_result (ImageService.gen_task_index t) exc)).

Definition collect_edit (W : World) (t : ImageService.EditTask)
    : M ImageService.TaskResult :=
  try_except (ImageService._worker_edit_image W t)
    (fun exc =>
       ret (ImageService.failed_result (ImageService.edit_task_index t) exc)).

(** The placeholder number [k] of the fallback of [analyze_story]. *)
Definition generic_scene (k : nat) : string :=
  "Generic meme scene " ++ PyStr.str_of_nat k.

(** The file of a path was opened for writing, written and closed
    within [ev]. *)
Definition written_in (ev : Trace) (p : string) : Prop :=
  exists h data,
    In (FsOpen h p "wb") ev /\ In (FsWrite h data) ev /\ In (FsClose h) ev.

(** A successful record names a file written within [ev]. *)
Definition saved (r : ImageService.TaskResult) (ev : Trace) : Prop :=
  ImageService.success r = true ->
  exists p, ImageService.output_path r = Some p /\ written_in ev p.

Definition edit_task_prompt (t : ImageService.EditTask) : string :=
  let '(prompt, _, _, _) := t in prompt.

(** The event is an edit request made for this prompt. *)
Definition asks_for (e : Event) (prompt : string) : Prop :=
  exists model images, e = ApiEdit model prompt images.

(** A world in which only ["a.png"] exists. *)
Definition bare_studio : World :=
  mkWorld (api_generate studio) (api_edit studio) (b64decode studio)
    (fs_open studio) (fs_write studio)
    (fun _ path => String.eqb path "a.png")
    (fs_makedirs studio) (clock studio) (path_norm studio).

(** What one task of an edit batch sends: nothing, or one request
    for its prompt. *)
Definition sends_for (t : ImageService.EditTask) (sent : list Event)
    : Prop :=
  sent = [] \/ exists e, sent = [e] /\ asks_for e (edit_task_prompt t).

(* ================================================================= *)
(** * Properties *)

Example path_for_3 :
  path_for "out" "image" 3 = "out/image_003.png".
Proof. reflexivity. Qed.

Example path_for_42 :
  path_for "generated_images/session_20240101_120000" "edited_image" 42
  = "generated_images/session_20240101_120000/edited_image_042.png".
Proof. reflexivity. Qed.

Example path_for_1000 :
  path_for "." "image" 1000 = "image_1000.png".
Proof. reflexivity. Qed.

(* ----------------------------------------------------------------- *)
(** ** File names *)

Section FileNames.

Lemma ascii_compare_refl (c : ascii) : Ascii.compare c c = Eq.
Proof. unfold Ascii.compare. apply N.compare_refl. Qed.

Lemma string_compare_refl (s : string) : String.compare s s = Eq.
Proof.
  induction s as [|c s IH]; simpl; [reflexivity|].
  now rewrite ascii_compare_refl.
Qed.

Lemma string_compare_prefix (p a b : string) :
  String.compare (p ++ a) (p ++ b) = String.compare a b.
Proof.
  induction p as [|c p IH]; simpl; [reflexivity|].
  now rewrite ascii_compare_refl.
Qed.

Lemma ascii_compare_lt_trans (a b c : ascii) :
  Ascii.compare a b = Lt -> Ascii.compare b c = Lt -> Ascii.compare a c = Lt.
Proof.
  unfold Ascii.compare. rewrite !N.compare_lt_iff. lia.
Qed.

Lemma string_compare_lt_trans (s1 s2 s3 : string) :
  String.compare s1 s2 = Lt -> String.compare s2 s3 = Lt ->
  String.compare s1 s3 = Lt.
Proof.
  revert s2 s3.
  induction s1 as [|a s1 IH]; intros [|b s2] [|c s3]; simpl;
    try discriminate; try reflexivity.
  destruct (Ascii.compare a b) eqn:Hab; try discriminate;
    destruct (Ascii.compare b c) eqn:Hbc; try discriminate; intros H1 H2.
  - apply Ascii.compare_eq_iff in Hab, Hbc. subst.
    rewrite ascii_compare_refl. eauto.
  - apply Ascii.compare_eq_iff in Hab. subst. now rewrite Hbc.
  - apply Ascii.compare_eq_iff in Hbc. subst. now rewrite Hab.
  - now rewrite (ascii_compare_lt_trans _ _ _ Hab Hbc).
Qed.

Lemma append_inv_head (p a b : string) : p ++ a = p ++ b -> a = b.
Proof.
  induction p as [|c p IH]; simpl; [easy|].
  intros H. injection H. exact IH.
Qed.

Lemma append_length (a b : string) :
  String.length (a ++ b) = String.length a + String.length b.
Proof. induction a; simpl; congruence. Qed.

Lemma append_inv_tail (a b t : string) : a ++ t = b ++ t -> a = b.
Proof.
  revert b. induction a as [|c a IH]; intros [|d b] H; simpl in *.
  - reflexivity.
  - apply (f_equal String.length) in H. simpl in H.
    rewrite append_length in H. lia.
  - apply (f_equal String.length) in H. simpl in H.
    rewrite append_length in H. lia.
  - injection H as -> H. f_equal. now apply IH.
Qed.

Lemma read_nat_zeros (k : nat) (s : string) :
  read_nat (PyStr.zeros k ++ s) = read_nat s.
Proof.
  unfold read_nat.
  induction k as [|k IH]; simpl; [reflexivity|].
  destruct (NilEmpty.uint_of_string (PyStr.zeros k ++ s)) as [d|];
    destruct (NilEmpty.uint_of_string s) as [d'|]; simpl in *;
    try discriminate; try reflexivity.
  rewrite <- IH. reflexivity.
Qed.

Lemma read_fmt_03d (i : nat) : read_nat (PyStr.fmt_03d i) = Some i.
Proof.
  unfold PyStr.fmt_03d. rewrite read_nat_zeros.
  unfold read_nat, PyStr.str_of_nat.
  rewrite NilEmpty.usu. simpl. now rewrite DecimalNat.Unsigned.of_to.
Qed.

Lemma fmt_03d_inj (i j : nat) : PyStr.fmt_03d i = PyStr.fmt_03d j -> i = j.
Proof.
  intros H. apply (f_equal read_nat) in H.
  rewrite !read_fmt_03d in H. congruence.
Qed.

Lemma zeros_length (k : nat) : String.length (PyStr.zeros k) = k.
Proof. induction k; simpl; congruence. Qed.

Lemma fmt_03d_width (i : nat) : 3 <= String.length (PyStr.fmt_03d i).
Proof.
  unfold PyStr.fmt_03d. rewrite append_length, zeros_length. lia.
Qed.

Lemma file_name_inj (prefix : string) (i j : nat) :
  file_name prefix i = file_name prefix j -> i = j.
Proof.
  unfold file_name. intros H.
  apply append_inv_head in H. apply append_inv_head in H.
  apply append_inv_tail in H. now apply fmt_03d_inj.
Qed.

Lemma append_assoc (a b c : string) : (a ++ b) ++ c = a ++ b ++ c.
Proof. induction a; simpl; congruence. Qed.

Lemma path_div_prefix (d : Path) (name : string) :
  path_div d name = dir_prefix d ++ name.
Proof.
  unfold path_div, dir_prefix.
  destruct (String.eqb d "."); [reflexivity|].
  destruct (PyStr.ends_with_slash d); [reflexivity|].
  now rewrite append_assoc.
Qed.

Lemma path_for_inj (d : Path) (prefix : string) (i j : nat) :
  path_for d prefix i = path_for d prefix j -> i = j.
Proof.
  unfold path_for. rewrite !path_div_prefix. intros H.
  apply append_inv_head in H. now apply file_name_inj in H.
Qed.

Lemma padded_step_check :
  forallb (fun i => String.ltb (padded i) (padded (S i))) (seq 0 999) = true.
Proof. vm_compute. reflexivity. Qed.

Lemma padded_step (i : nat) :
  i < 999 -> String.compare (padded i) (padded (S i)) = Lt.
Proof.
  intros Hi.
  pose proof padded_step_check as H.
  rewrite forallb_forall in H.
  specialize (H i). unfold String.ltb in H.
  destruct (String.compare (padded i) (padded (S i))); try reflexivity;
    (assert (false = true) by (apply H; apply in_seq; lia); discriminate).
Qed.

Lemma padded_lt (i j : nat) :
  i < j -> j < 1000 -> String.compare (padded i) (padded j) = Lt.
Proof.
  induction j as [|j IH]; intros Hij Hj; [lia|].
  destruct (Nat.eq_dec i j) as [->|Hne].
  - apply padded_step. lia.
  - apply string_compare_lt_trans with (padded j).
    + apply IH; lia.
    + apply padded_step. lia.
Qed.

Lemma padded_compare (i j : nat) :
  i < 1000 -> j < 1000 ->
  String.compare (padded i) (padded j) = Nat.compare i j.
Proof.
  intros Hi Hj. destruct (Nat.compare_spec i j) as [->|H|H].
  - apply string_compare_refl.
  - now apply padded_lt.
  - rewrite String.compare_antisym, padded_lt by assumption. reflexivity.
Qed.

Lemma path_for_compare (d : Path) (prefix : string) (i j : nat) :
  i < 1000 -> j < 1000 ->
  String.compare (path_for d prefix i) (path_for d prefix j)
  = Nat.compare i j.
Proof.
  intros Hi Hj. unfold path_for, file_name.
  rewrite !path_div_prefix.
  rewrite !string_compare_prefix. now apply padded_compare.
Qed.

End FileNames.

(* ----------------------------------------------------------------- *)
(** ** Sorting by index *)

Section Sorting.

Import ImageService.

Lemma insert_by_index_perm (r : TaskResult) (l : list TaskResult) :
  Permutation (insert_by_index r l) (r :: l).
Proof.
  induction l as [|x l IH]; simpl; [reflexivity|].
  destruct (index r <=? index x)%nat; [reflexivity|].
  rewrite IH. apply perm_swap.
Qed.

Lemma sort_by_index_perm (l : list TaskResult) :
  Permutation (sort_by_index l) l.
Proof.
  induction l as [|r l IH]; simpl; [reflexivity|].
  rewrite insert_by_index_perm. now constructor.
Qed.

Lemma insert_by_index_sorted (r : TaskResult) (l : list TaskResult) :
  StronglySorted index_le l -> StronglySorted index_le (insert_by_index r l).
Proof.
  induction 1 as [|x l Hs IH Hall]; simpl.
  - repeat constructor.
  - destruct (index r <=? index x)%nat eqn:E.
    + apply Nat.leb_le in E. constructor; [now constructor|].
      constructor; [exact E|].
      eapply Forall_impl; [|exact Hall].
      unfold index_le. intros; lia.
    + apply Nat.leb_gt in E. constructor; [exact IH|].
      eapply Permutation_Forall.
      * symmetry. apply insert_by_index_perm.
      * constructor; [unfold index_le; lia | exact Hall].
Qed.

Lemma sort_by_index_sorted (l : list TaskResult) :
  StronglySorted index_le (sort_by_index l).
Proof.
  induction l as [|r l IH]; simpl; [constructor|].
  now apply insert_by_index_sorted.
Qed.

Lemma sorted_map_index (l : list TaskResult) :
  StronglySorted index_le l -> StronglySorted le (map index l).
Proof.
  induction 1 as [|x l Hs IH Hall]; simpl; constructor; [exact IH|].
  rewrite Forall_map. exact Hall.
Qed.

(** An ascending arrangement of [a, a+1, ..., a+n-1] is that sequence. *)
Lemma sorted_perm_seq (n a : nat) (l : list nat) :
  Permutation l (seq a n) -> StronglySorted le l -> l = seq a n.
Proof.
  revert a l. induction n as [|n IH]; intros a l Hp Hs; simpl in *.
  - now apply Permutation_nil, Permutation_sym.
  - destruct l as [|x l].
    { apply Permutation_nil in Hp. discriminate. }
    inversion Hs as [|? ? Hs' Hall]; subst.
    assert (Hx : In x (a :: seq (S a) n))
      by (eapply Permutation_in; [exact Hp | now left]).
    assert (Ha : In a (x :: l))
      by (eapply Permutation_in; [symmetry; exact Hp | now left]).
    assert (x = a) as ->.
    { destruct Hx as [<-|Hx]; [reflexivity|].
      apply in_seq in Hx. destruct Ha as [->|Ha]; [reflexivity|].
      rewrite Forall_forall in Hall. specialize (Hall a Ha). lia. }
    f_equal. apply IH; [|exact Hs'].
    now apply Permutation_cons_inv in Hp.
Qed.

Lemma sort_by_index_seq (l : list TaskResult) (n : nat) :
  Permutation (map index l) (seq 0 n) ->
  map index (sort_by_index l) = seq 0 n.
Proof.
  intros Hp. apply sorted_perm_seq.
  - rewrite <- Hp. apply Permutation_map, sort_by_index_perm.
  - apply sorted_map_index, sort_by_index_sorted.
Qed.

End Sorting.

(* ----------------------------------------------------------------- *)
(** ** Workers and the pool *)

Section Orchestrator.

Import ImageService.

Variable W : World.
Variable as_completed : forall T : Type, list T -> list T.
Hypothesis as_completed_perm :
  forall (T : Type) (l : list T), Permutation (as_completed T l) l.

Lemma worker_generate_eq (prompt model : string) (i : nat) (o : string)
    (tr : Trace) :
  _worker_generate_image W (prompt, model, i, o) tr =
  match generate_image W prompt model (Some o) tr with
  | (inr _, tr') => (inr (ok_result i o), tr')
  | (inl e, tr') => (inr (failed_result i e), tr')
  end.
Proof.
  unfold _worker_generate_image, try_except, bind.
  destruct (generate_image W prompt model (Some o) tr) as [[e|v] tr'];
    reflexivity.
Qed.

Lemma worker_edit_eq (prompt : string) (paths : list string) (i : nat)
    (o : string) (tr : Trace) :
  _worker_edit_image W (prompt, paths, i, o) tr =
  match edit_image W prompt paths default_model (Some o) tr with
  | (inr _, tr') => (inr (ok_result i o), tr')
  | (inl e, tr') => (inr (failed_result i e), tr')
  end.
Proof.
  unfold _worker_edit_image, try_except, bind.
  destruct (edit_image W prompt paths default_model (Some o) tr)
    as [[e|v] tr']; reflexivity.
Qed.

Lemma worker_generate_answers (t : GenTask) (tr : Trace) :
  exists r tr', _worker_generate_image W t tr = (inr r, tr')
                /\ answers (gen_task_index t) (snd t) r.
Proof.
  destruct t as [[[prompt model] i] o]. rewrite worker_generate_eq.
  destruct (generate_image W prompt model (Some o) tr) as [[e|v] tr'];
    do 2 eexists; (split; [reflexivity|]); unfold answers; simpl; eauto.
Qed.

Lemma worker_edit_answers (t : EditTask) (tr : Trace) :
  exists r tr', _worker_edit_image W t tr = (inr r, tr')
                /\ answers (edit_task_index t) (snd t) r.
Proof.
  destruct t as [[[prompt paths] i] o]. rewrite worker_edit_eq.
  destruct (edit_image W prompt paths default_model (Some o) tr)
    as [[e|v] tr']; do 2 eexists; (split; [reflexivity|]);
    unfold answers; simpl; eauto.
Qed.

(** A loop whose body always returns, returns. *)
Lemma for_each_returns {A B} (f : A -> M B) (P : A -> B -> Prop) :
  (forall a tr, exists b tr', f a tr = (inr b, tr') /\ P a b) ->
  forall l tr, exists bs tr',
    for_each f l tr = (inr bs, tr') /\ Forall2 P l bs.
Proof.
  intros Hf. induction l as [|a l IH]; intros tr; simpl.
  - exists [], tr. split; [reflexivity | constructor].
  - destruct (Hf a tr) as (b & tr1 & Hb & HP).
    destruct (IH tr1) as (bs & tr2 & Hbs & HPs).
    exists (b :: bs), tr2. unfold bind. rewrite Hb, Hbs.
    split; [reflexivity | now constructor].
Qed.

(** The collecting loop hands back one record per future, each for
    the index of its task, whatever the workers did. *)
Lemma run_pool_returns {T} (svc : OpenAIImageService)
    (worker : T -> M TaskResult) (task_index : T -> nat)
    (task_path : T -> string) (tasks : list T) (tr : Trace) :
  (0 < max_workers svc)%Z ->
  (forall t tr0 r tr1, worker t tr0 = (inr r, tr1) ->
                       answers (task_index t) (task_path t) r) ->
  exists rs tr',
    run_pool as_completed svc worker task_index tasks tr = (inr rs, tr')
    /\ Forall2 (fun t r => answers (task_index t) (task_path t) r)
               (as_completed T tasks) rs.
Proof.
  intros Hw Hworker. unfold run_pool, thread_pool, bind.
  destruct (max_workers svc <=? 0)%Z eqn:E; [apply Z.leb_le in E; lia|].
  simpl. apply for_each_returns. intros t tr0. unfold try_except.
  destruct (worker t tr0) as [[e|r] tr1] eqn:Hr.
  - do 2 eexists. split; [reflexivity|]. right. now exists e.
  - do 2 eexists. split; [reflexivity|]. eapply Hworker; eassumption.
Qed.

Lemma enumerate_from_index {A} (l : list A) (k : nat) :
  map fst (enumerate_from k l) = seq k (List.length l).
Proof.
  revert k. induction l as [|a l IH]; intros k; simpl; [reflexivity|].
  now rewrite IH.
Qed.

Lemma gen_tasks_index (d : Path) (model : string) (prompts : list string) :
  map gen_task_index (gen_tasks d model prompts)
  = seq 0 (List.length prompts).
Proof.
  unfold gen_tasks, enumerate. rewrite map_map.
  rewrite <- enumerate_from_index. apply map_ext. now intros [i p].
Qed.

Lemma edit_tasks_index (d : Path) (prompts : list string)
    (image_paths_list : list (list string)) :
  map edit_task_index (edit_tasks d prompts image_paths_list)
  = seq 0 (List.length (combine prompts image_paths_list)).
Proof.
  unfold edit_tasks, enumerate. rewrite map_map.
  rewrite <- enumerate_from_index. apply map_ext. now intros [i [p ps]].
Qed.

Lemma gen_tasks_path (d : Path) (model : string) (prompts : list string) :
  Forall (fun t => snd t = path_for d "image" (gen_task_index t))
         (gen_tasks d model prompts).
Proof.
  unfold gen_tasks. rewrite Forall_map. apply Forall_forall.
  now intros [i p] _.
Qed.

Lemma edit_tasks_path (d : Path) (prompts : list string)
    (image_paths_list : list (list string)) :
  Forall (fun t => snd t = path_for d "edited_image" (edit_task_index t))
         (edit_tasks d prompts image_paths_list).
Proof.
  unfold edit_tasks. rewrite Forall_map. apply Forall_forall.
  now intros [i [p ps]] _.
Qed.

Lemma answers_index (i : nat) (o : string) (r : TaskResult) :
  answers i o r -> index r = i.
Proof. intros [->|[e ->]]; reflexivity. Qed.

Lemma collected_shape {T} (task_index : T -> nat) (task_path : T -> string)
    (d : Path) (prefix : string) (tasks done : list T)
    (rs : list TaskResult) (n : nat) :
  map task_index tasks = seq 0 n ->
  Forall (fun t => task_path t = path_for d prefix (task_index t)) tasks ->
  Permutation done tasks ->
  Forall2 (fun t r => answers (task_index t) (task_path t) r) done rs ->
  map index (sort_by_index rs) = seq 0 n
  /\ Forall (batch_record d prefix) (sort_by_index rs).
Proof.
  intros Hidx Hpath Hperm Hans.
  assert (Hmap : map index rs = map task_index done).
  { clear -Hans. induction Hans as [|t r ts rs' Ha _ IH]; simpl;
      [reflexivity|]. rewrite IH. f_equal. eapply answers_index, Ha. }
  split.
  - apply sort_by_index_seq. rewrite Hmap, <- Hidx.
    now apply Permutation_map.
  - eapply Permutation_Forall; [symmetry; apply sort_by_index_perm|].
    assert (Hdone : Forall (fun t => task_path t
                      = path_for d prefix (task_index t)) done)
      by (eapply Permutation_Forall; [symmetry; exact Hperm | exact Hpath]).
    clear -Hans Hdone.
    induction Hans as [|t r ts rs' Ha _ IH]; [constructor|].
    inversion Hdone as [|? ? Ht Hts]; subst.
    constructor; [|now apply IH].
    unfold batch_record. rewrite (answers_index _ _ _ Ha), <- Ht. exact Ha.
Qed.

End Orchestrator.

(* ----------------------------------------------------------------- *)
(** ** The bulk entry points of the service *)

Section ServiceBulk.

Import ImageService.

Variable W : World.
Variable as_completed : forall T : Type, list T -> list T.
Hypothesis as_completed_perm :
  forall (T : Type) (l : list T), Permutation (as_completed T l) l.

Lemma bulk_generate_spec (svc : OpenAIImageService) (prompts : list string)
    (model : string) (output_dir : option Path) (tr : Trace)
    (d : Path) (tr1 : Trace) :
  (0 < max_workers svc)%Z ->
  resolve_session_dir W output_dir tr = (inr d, tr1) ->
  exists rs tr2,
    bulk_generate_images W as_completed svc prompts model output_dir tr
    = (inr rs, tr2)
    /\ map index rs = seq 0 (List.length prompts)
    /\ Forall (batch_record d "image") rs.
Proof.
  intros Hw Hd. unfold bulk_generate_images.
  unfold bind at 1. rewrite Hd.
  destruct (run_pool_returns as_completed svc (_worker_generate_image W)
              gen_task_index snd (gen_tasks d model prompts) tr1 Hw)
    as (rs & tr2 & Hrun & Hans).
  { intros t tr0 r tr0' Hr.
    destruct (worker_generate_answers W t tr0) as (r' & tr' & Hr' & Ha).
    congruence. }
  exists (sort_by_index rs), tr2. unfold bind. rewrite Hrun.
  split; [reflexivity|].
  eapply collected_shape; eauto using gen_tasks_index, gen_tasks_path.
Qed.

Lemma bulk_edit_spec (svc : OpenAIImageService) (prompts : list string)
    (image_paths_list : list (list string))
    (model : string) (output_dir : option Path) (tr : Trace)
    (d : Path) (tr1 : Trace) :
  (0 < max_workers svc)%Z ->
  List.length prompts = List.length image_paths_list ->
  resolve_session_dir W output_dir tr = (inr d, tr1) ->
  exists rs tr2,
    bulk_edit_images W as_completed svc prompts image_paths_list model
      output_dir tr = (inr rs, tr2)
    /\ map index rs = seq 0 (List.length prompts)
    /\ Forall (batch_record d "edited_image") rs.
Proof.
  intros Hw Hlen Hd. unfold bulk_edit_images.
  rewrite Hlen, Nat.eqb_refl. simpl.
  unfold bind at 1. rewrite Hd.
  destruct (run_pool_returns as_completed svc (_worker_edit_image W)
              edit_task_index snd
              (edit_tasks d prompts image_paths_list) tr1 Hw)
    as (rs & tr2 & Hrun & Hans).
  { intros t tr0 r tr0' Hr.
    destruct (worker_edit_answers W t tr0) as (r' & tr' & Hr' & Ha).
    congruence. }
  exists (sort_by_index rs), tr2. unfold bind. rewrite Hrun.
  split; [reflexivity|].
  assert (Hn : List.length (combine prompts image_paths_list)
               = List.length image_paths_list)
    by (rewrite length_combine; lia).
  rewrite <- Hn.
  eapply collected_shape; eauto using edit_tasks_index, edit_tasks_path.
Qed.

Lemma bulk_edit_mismatch (svc : OpenAIImageService) (prompts : list string)
    (image_paths_list : list (list string))
    (model : string) (output_dir : option Path) (tr : Trace) :
  List.length prompts <> List.length image_paths_list ->
  bulk_edit_images W as_completed svc prompts image_paths_list model
    output_dir tr
  = (inl (mkExn "ValueError"
            "Number of prompts must match number of image path lists"), tr).
Proof.
  intros Hlen. unfold bulk_edit_images.
  apply Nat.eqb_neq in Hlen. rewrite Hlen. reflexivity.
Qed.

End ServiceBulk.

(* ----------------------------------------------------------------- *)
(** ** Results come back one per prompt, in submission order *)

Lemma seq_strictly_sorted (n a : nat) : StronglySorted lt (seq a n).
Proof.
  revert a. induction n as [|n IH]; intros a; simpl; constructor.
  - apply IH.
  - apply Forall_forall. intros x Hx. apply in_seq in Hx. lia.
Qed.

Lemma seq_in_submission_order (n : nat) (rs : list ImageService.TaskResult) :
  map ImageService.index rs = seq 0 n -> in_submission_order n rs.
Proof.
  intros H. unfold in_submission_order. rewrite H. repeat split.
  - rewrite <- (length_map ImageService.index), H. apply length_seq.
  - intros Hi. apply in_seq in Hi. lia.
  - intros Hi. apply in_seq. lia.
  - apply seq_strictly_sorted.
Qed.

(** C1.  Whatever the completion order, once the session directory is
    resolved a service with a usable pool returns, for a batch of N
    prompts, a list of exactly N records whose indices are exactly
    0, ..., N-1 and ascend; this holds for [bulk_generate_images] and,
    when there are as many source lists as prompts, for
    [bulk_edit_images]. *)
Theorem bulk_results_in_submission_order :
  forall (W : World) (as_completed : forall T : Type, list T -> list T),
    (forall (T : Type) (l : list T), Permutation (as_completed T l) l) ->
    forall (svc : ImageService.OpenAIImageService)
           (prompts : list string) (image_paths_list : list (list string))
           (model : string) (output_dir : option Path)
           (tr : Trace) (d : Path) (tr1 : Trace),
      (0 < ImageService.max_workers svc)%Z ->
      ImageService.resolve_session_dir W output_dir tr = (inr d, tr1) ->
      (exists rs tr2,
          ImageService.bulk_generate_images W as_completed svc prompts model
            output_dir tr = (inr rs, tr2)
          /\ in_submission_order (List.length prompts) rs)
      /\ (List.length prompts = List.length image_paths_list ->
          exists rs tr2,
            ImageService.bulk_edit_images W as_completed svc prompts
              image_paths_list model output_dir tr = (inr rs, tr2)
            /\ in_submission_order (List.length prompts) rs).
Proof.
  intros W ac Hperm svc prompts ipl model out tr d tr1 Hw Hd. split.
  - destruct (bulk_generate_spec W ac Hperm svc prompts model out tr d tr1
                Hw Hd) as (rs & tr2 & Hrun & Hidx & _).
    exists rs, tr2. split; [exact Hrun|]. now apply seq_in_submission_order.
  - intros Hlen.
    destruct (bulk_edit_spec W ac Hperm svc prompts ipl model out tr d tr1
                Hw Hlen Hd) as (rs & tr2 & Hrun & Hidx & _).
    exists rs, tr2. split; [exact Hrun|]. now apply seq_in_submission_order.
Qed.

Lemma last_first_perm (T : Type) (l : list T) :
  Permutation (last_first T l) l.
Proof. symmetry. apply Permutation_rev. Defined.

Lemma bulk_results_in_submission_order_witness :
  (exists rs tr2,
      ImageService.bulk_generate_images studio last_first
        (ImageService.init 50) ["a cat meme"; "a dog meme"; "a fox meme"]
        "gpt-image-1" None [] = (inr rs, tr2)
      /\ in_submission_order 3 rs)
  /\ (3 = 3 ->
      exists rs tr2,
        ImageService.bulk_edit_images studio last_first
          (ImageService.init 50) ["a cat meme"; "a dog meme"; "a fox meme"]
          [["a.png"]; ["missing.png"]; ["b.png"; "c.png"]]
          "gpt-image-1" None [] = (inr rs, tr2)
        /\ in_submission_order 3 rs).
Proof.
  apply (bulk_results_in_submission_order studio last_first last_first_perm
           (ImageService.init 50)
           ["a cat meme"; "a dog meme"; "a fox meme"]
           [["a.png"]; ["missing.png"]; ["b.png"; "c.png"]]
           "gpt-image-1" None []
           "generated_images/session_20240101_120000"
           [FsMakedirs "generated_images/session_20240101_120000";
            FsMakedirs "generated_images/session_20240101_120000"]).
  - reflexivity.
  - reflexivity.
Defined.

(* ----------------------------------------------------------------- *)
(** ** The bulk tools and their manifest *)

Section ToolsBulk.

Import ImageService.

Variable W : World.
Variable as_completed : forall T : Type, list T -> list T.
Hypothesis as_completed_perm :
  forall (T : Type) (l : list T), Permutation (as_completed T l) l.

(** Looking for missing files changes nothing and never raises. *)
Lemma first_missing_pure (paths : list string) (tr : Trace) :
  exists x, ImageTools.first_missing W paths tr = (inr x, tr).
Proof.
  induction paths as [|p paths IH]; simpl.
  - now exists None.
  - unfold bind, os_path_exists.
    destruct (fs_exists W tr p); [exact IH | now exists (Some p)].
Qed.

Lemma first_missing_indexed_pure (l : list (nat * list string))
    (tr : Trace) :
  exists x, ImageTools.first_missing_indexed W l tr = (inr x, tr).
Proof.
  induction l as [|[i paths] l IH]; simpl.
  - now exists None.
  - unfold bind. destruct (first_missing_pure paths tr) as [[p|] ->].
    + now exists (Some (i, p)).
    + exact IH.
Qed.

Lemma image_service_pool : (0 < max_workers ImageTools.image_service)%Z.
Proof. reflexivity. Qed.

Lemma tool_bulk_generate_spec (input : ImageTools.BulkGenerateImagesInput)
    (tr : Trace) (d : Path) (tr1 : Trace) :
  resolve_session_dir W (ImageTools.to_path W (ImageTools.bg_output_dir input))
    tr = (inr d, tr1) ->
  exists rs tr2,
    ImageTools.bulk_generate_images W as_completed input tr
    = (inr (ImageTools.ToolManifest
              (ImageTools.manifest "Generated"
                 (List.length (ImageTools.bg_prompts input))
                 (ImageTools.to_path W (ImageTools.bg_output_dir input))
                 rs)), tr2)
    /\ map index rs = seq 0 (List.length (ImageTools.bg_prompts input))
    /\ Forall (batch_record d "image") rs.
Proof.
  intros Hd.
  destruct (bulk_generate_spec W as_completed as_completed_perm
              ImageTools.image_service (ImageTools.bg_prompts input)
              (ImageTools.bg_model input) _ tr d tr1
              image_service_pool Hd) as (rs & tr2 & Hrun & Hidx & Hrec).
  exists rs, tr2. unfold ImageTools.bulk_generate_images, bind.
  rewrite Hrun. auto.
Qed.

Lemma tool_bulk_edit_spec (input : ImageTools.BulkEditImagesInput)
    (tr : Trace) (d : Path) (tr1 : Trace) :
  ImageTools.first_missing_indexed W
    (enumerate (ImageTools.be_image_paths_list input)) tr = (inr None, tr) ->
  List.length (ImageTools.be_prompts input)
  = List.length (ImageTools.be_image_paths_list input) ->
  resolve_session_dir W (ImageTools.to_path W (ImageTools.be_output_dir input))
    tr = (inr d, tr1) ->
  exists rs tr2,
    ImageTools.bulk_edit_images W as_completed input tr
    = (inr (ImageTools.ToolManifest
              (ImageTools.manifest "Edited"
                 (List.length (ImageTools.be_prompts input))
                 (ImageTools.to_path W (ImageTools.be_output_dir input))
                 rs)), tr2)
    /\ map index rs = seq 0 (List.length (ImageTools.be_prompts input))
    /\ Forall (batch_record d "edited_image") rs.
Proof.
  intros Hmiss Hlen Hd.
  destruct (bulk_edit_spec W as_completed as_completed_perm
              ImageTools.image_service (ImageTools.be_prompts input)
              (ImageTools.be_image_paths_list input)
              (ImageTools.be_model input) _ tr d tr1
              image_service_pool Hlen Hd) as (rs & tr2 & Hrun & Hidx & Hrec).
  exists rs, tr2. unfold ImageTools.bulk_edit_images.
  unfold bind at 1. rewrite Hmiss. unfold bind. rewrite Hrun. auto.
Qed.

End ToolsBulk.

Section ManifestFacts.

Import ImageService.


Lemma batch_record_success (d : Path) (prefix : string) (r : TaskResult) :
  batch_record d prefix r -> success r = true ->
  output_path r = Some (path_for d prefix (index r)).
Proof.
  unfold batch_record. intros [H|[e H]] Hs.
  - rewrite H at 1. reflexivity.
  - rewrite H in Hs. discriminate.
Qed.

Lemma filter_keeps_sorted (f : TaskResult -> bool) (l : list TaskResult) :
  StronglySorted lt (map index l) ->
  StronglySorted lt (map index (filter f l)).
Proof.
  induction l as [|x l IH]; simpl; intros Hs; [constructor|].
  inversion Hs as [|? ? Hs' Hall]; subst.
  destruct (f x); simpl; [constructor|]; auto.
  rewrite Forall_map in *. rewrite Forall_forall in *.
  intros y Hy. apply Hall. apply filter_In in Hy. tauto.
Qed.

Lemma same_index_same_record (l : list TaskResult) (a b : TaskResult) :
  NoDup (map index l) -> In a l -> In b l -> index a = index b -> a = b.
Proof.
  induction l as [|x l IH]; simpl; intros Hnd Ha Hb Hab; [contradiction|].
  inversion Hnd as [|? ? Hx Hnd']; subst.
  destruct Ha as [->|Ha], Hb as [->|Hb]; auto.
  - exfalso. apply Hx. rewrite Hab. now apply in_map.
  - exfalso. apply Hx. rewrite <- Hab. now apply in_map.
Qed.

Lemma manifest_lists_successes (verb : string) (n : nat)
    (output_dir_path : option Path) (d : Path) (prefix : string)
    (rs : list TaskResult) (k : nat) :
  map index rs = seq 0 k ->
  Forall (batch_record d prefix) rs ->
  lists_successes d prefix (ImageTools.manifest verb n output_dir_path rs).
Proof.
  intros Hidx Hrec. unfold lists_successes. simpl.
  unfold ImageTools.successful_paths.
  assert (Hpaths : map output_path (filter success rs)
                   = map (fun r => Some (path_for d prefix (index r)))
                         (filter success rs)).
  { apply map_ext_in. intros r Hr. apply filter_In in Hr as [Hin Hs].
    rewrite Forall_forall in Hrec. now apply batch_record_success; auto. }
  repeat split.
  - exact Hpaths.
  - apply filter_keeps_sorted. rewrite Hidx. apply seq_strictly_sorted.
  - rewrite Hpaths. intros Hin. apply in_map_iff in Hin as (r' & Heq & Hr').
    apply filter_In in Hr' as [Hin' Hs'].
    injection Heq as Heq. apply path_for_inj in Heq.
    assert (r' = r) as <-; [|exact Hs'].
    eapply same_index_same_record; eauto.
    rewrite Hidx. apply seq_NoDup.
  - intros Hs. rewrite Hpaths.
    apply (in_map (fun r => Some (path_for d prefix (index r)))).
    apply filter_In. auto.
Qed.


End ManifestFacts.

(* ----------------------------------------------------------------- *)
(** ** Claims about the manifest *)

(** C2.  Whenever a bulk tool gets as far as a manifest (the session
    directory is resolved; for editing, every source image exists and
    there is one source list per prompt), its [output_paths] are
    exactly the output paths of the records with [success] true, in
    ascending index order, and the file of a task is listed if and
    only if that task succeeded. *)
Theorem output_paths_are_the_successes_in_order :
  forall (W : World) (as_completed : forall T : Type, list T -> list T),
    (forall (T : Type) (l : list T), Permutation (as_completed T l) l) ->
    (forall (input : ImageTools.BulkGenerateImagesInput)
            (tr : Trace) (d : Path) (tr1 : Trace),
        ImageService.resolve_session_dir W
          (ImageTools.to_path W (ImageTools.bg_output_dir input)) tr
        = (inr d, tr1) ->
        exists m tr2,
          ImageTools.bulk_generate_images W as_completed input tr
          = (inr (ImageTools.ToolManifest m), tr2)
          /\ lists_successes d "image" m)
    /\ (forall (input : ImageTools.BulkEditImagesInput)
               (tr : Trace) (d : Path) (tr1 : Trace),
           ImageTools.first_missing_indexed W
             (ImageService.enumerate (ImageTools.be_image_paths_list input))
             tr = (inr None, tr) ->
           List.length (ImageTools.be_prompts input)
           = List.length (ImageTools.be_image_paths_list input) ->
           ImageService.resolve_session_dir W
             (ImageTools.to_path W (ImageTools.be_output_dir input)) tr
           = (inr d, tr1) ->
           exists m tr2,
             ImageTools.bulk_edit_images W as_completed input tr
             = (inr (ImageTools.ToolManifest m), tr2)
             /\ lists_successes d "edited_image" m).
Proof.
  intros W ac Hperm. split.
  - intros input tr d tr1 Hd.
    destruct (tool_bulk_generate_spec W ac Hperm input tr d tr1 Hd)
      as (rs & tr2 & Hrun & Hidx & Hrec).
    do 2 eexists. split; [exact Hrun|].
    eapply manifest_lists_successes; eassumption.
  - intros input tr d tr1 Hmiss Hlen Hd.
    destruct (tool_bulk_edit_spec W ac Hperm input tr d tr1 Hmiss Hlen Hd)
      as (rs & tr2 & Hrun & Hidx & Hrec).
    do 2 eexists. split; [exact Hrun|].
    eapply manifest_lists_successes; eassumption.
Qed.

Lemma output_paths_are_the_successes_in_order_witness :
  (exists m tr2,
      ImageTools.bulk_generate_images studio last_first
        (ImageTools.mkBulkGenerateImagesInput
           ["a dog meme"; "a cat meme"; "a fox meme"] (Some "out")
           "gpt-image-1") []
      = (inr (ImageTools.ToolManifest m), tr2)
      /\ lists_successes "out" "image" m)
  /\ (exists m tr2,
         ImageTools.bulk_edit_images studio last_first
           (ImageTools.mkBulkEditImagesInput
              ["add a hat"; "add a scarf"] [["a.png"]; ["b.png"; "c.png"]]
              (Some "out") "gpt-image-1") []
         = (inr (ImageTools.ToolManifest m), tr2)
         /\ lists_successes "out" "edited_image" m).
Proof.
  destruct (output_paths_are_the_successes_in_order studio last_first
              last_first_perm) as [Hgen Hedit].
  split.
  - apply (Hgen (ImageTools.mkBulkGenerateImagesInput
                   ["a dog meme"; "a cat meme"; "a fox meme"] (Some "out")
                   "gpt-image-1") [] "out" [FsMakedirs "out"]).
    reflexivity.
  - apply (Hedit (ImageTools.mkBulkEditImagesInput
                    ["add a hat"; "add a scarf"]
                    [["a.png"]; ["b.png"; "c.png"]]
                    (Some "out") "gpt-image-1") [] "out" [FsMakedirs "out"]);
      reflexivity.
Defined.



(* ----------------------------------------------------------------- *)
(** ** Preconditions *)

(** C4.  With a different number of prompts and source lists the
    service's [bulk_edit_images] raises its [ValueError] and leaves the
    trace as it found it: no directory made, no task dispatched, no
    request sent.  The tool of the same name fails too (with an error
    record when a source image is missing, with that [ValueError]
    otherwise), again without a single event. *)
Theorem length_mismatch_fails_before_dispatch :
  forall (W : World) (as_completed : forall T : Type, list T -> list T)
         (svc : ImageService.OpenAIImageService)
         (input : ImageTools.BulkEditImagesInput)
         (output_dir : option Path) (tr : Trace),
    List.length (ImageTools.be_prompts input)
    <> List.length (ImageTools.be_image_paths_list input) ->
    ImageService.bulk_edit_images W as_completed svc
      (ImageTools.be_prompts input) (ImageTools.be_image_paths_list input)
      (ImageTools.be_model input) output_dir tr
    = (inl (mkExn "ValueError"
              "Number of prompts must match number of image path lists"), tr)
    /\ exists outcome,
         ImageTools.bulk_edit_images W as_completed input tr = (outcome, tr)
         /\ (outcome
             = inl (mkExn "ValueError"
                      "Number of prompts must match number of image path lists")
             \/ exists msg, outcome = inr (ImageTools.ToolError msg)).
Proof.
  intros W ac svc input out tr Hlen. split.
  - now apply bulk_edit_mismatch.
  - unfold ImageTools.bulk_edit_images. unfold bind at 1.
    destruct (first_missing_indexed_pure W
                (ImageService.enumerate (ImageTools.be_image_paths_list input))
                tr) as [[[i p]|] ->].
    + eexists. split; [reflexivity|]. right. eauto.
    + unfold bind. rewrite bulk_edit_mismatch by exact Hlen.
      eexists. split; [reflexivity|]. now left.
Qed.

Lemma length_mismatch_fails_before_dispatch_witness :
  ImageService.bulk_edit_images studio in_order (ImageService.init 10)
    ["one"; "two"; "three"] [["a.png"]; ["b.png"]] "gpt-image-1" None []
  = (inl (mkExn "ValueError"
            "Number of prompts must match number of image path lists"), [])
  /\ exists outcome,
       ImageTools.bulk_edit_images studio in_order
         (ImageTools.mkBulkEditImagesInput ["one"; "two"; "three"]
            [["a.png"]; ["b.png"]] None "gpt-image-1") []
       = (outcome, [])
       /\ (outcome
           = inl (mkExn "ValueError"
                    "Number of prompts must match number of image path lists")
           \/ exists msg, outcome = inr (ImageTools.ToolError msg)).
Proof.
  apply (length_mismatch_fails_before_dispatch studio in_order
           (ImageService.init 10)
           (ImageTools.mkBulkEditImagesInput ["one"; "two"; "three"]
              [["a.png"]; ["b.png"]] None "gpt-image-1") None []).
  simpl. lia.
Defined.

(** C5, as the code has it.  An empty prompt list is no precondition
    error.  When the session directory is resolved (it is made even
    for an empty batch, without a request) and the pool has at least
    one worker, the service adds nothing more to the trace and
    returns the empty list, and the tools report a manifest with
    [success] true, no record, no path, the supplied directory or
    none, and a message of 0 images out of 0. *)
Theorem empty_batch_returns_empty_results :
  forall (W : World) (as_completed : forall T : Type, list T -> list T),
    (forall (T : Type) (l : list T), Permutation (as_completed T l) l) ->
    forall (svc : ImageService.OpenAIImageService) (model : string)
           (output_dir : option string) (tr : Trace) (d : Path) (tr1 : Trace),
      (0 < ImageService.max_workers svc)%Z ->
      ImageService.resolve_session_dir W (ImageTools.to_path W output_dir) tr
      = (inr d, tr1) ->
      backend_calls tr1 = backend_calls tr
      /\ ImageService.bulk_generate_images W as_completed svc [] model
           (ImageTools.to_path W output_dir) tr = (inr [], tr1)
      /\ ImageService.bulk_edit_images W as_completed svc [] [] model
           (ImageTools.to_path W output_dir) tr = (inr [], tr1)
      /\ ImageTools.bulk_generate_images W as_completed
           (ImageTools.mkBulkGenerateImagesInput [] output_dir model) tr
         = (inr (ImageTools.ToolManifest
                   (ImageTools.mkManifest true [] []
                      (ImageTools.to_path W output_dir)
                      "Generated 0 images out of 0 requested")), tr1)
      /\ ImageTools.bulk_edit_images W as_completed
           (ImageTools.mkBulkEditImagesInput [] [] output_dir model) tr
         = (inr (ImageTools.ToolManifest
                   (ImageTools.mkManifest true [] []
                      (ImageTools.to_path W output_dir)
                      "Edited 0 images out of 0 requested")), tr1).
Proof.
  intros W ac Hperm svc model out tr d tr1 Hw Hd.
  assert (Hnil : forall T, ac T [] = []).
  { intros T. apply Permutation_nil, Permutation_sym, Hperm. }
  assert (Hpool : forall (s : ImageService.OpenAIImageService),
             (0 < ImageService.max_workers s)%Z ->
             forall T (w : T -> M ImageService.TaskResult) ix,
               ImageService.run_pool ac s w ix [] tr1 = (inr [], tr1)).
  { intros s Hs T w ix.
    unfold ImageService.run_pool, ImageService.thread_pool, bind.
    destruct (ImageService.max_workers s <=? 0)%Z eqn:E;
      [apply Z.leb_le in E; lia|].
    simpl. now rewrite Hnil. }
  assert (Hgen : forall s, (0 < ImageService.max_workers s)%Z ->
             ImageService.bulk_generate_images W ac s [] model
               (ImageTools.to_path W out) tr = (inr [], tr1)).
  { intros s Hs. unfold ImageService.bulk_generate_images.
    unfold bind at 1. rewrite Hd. unfold bind.
    unfold ImageService.gen_tasks. simpl. now rewrite Hpool. }
  assert (Hedit : forall s, (0 < ImageService.max_workers s)%Z ->
             ImageService.bulk_edit_images W ac s [] [] model
               (ImageTools.to_path W out) tr = (inr [], tr1)).
  { intros s Hs. unfold ImageService.bulk_edit_images. simpl.
    unfold bind at 1. rewrite Hd. unfold bind.
    unfold ImageService.edit_tasks. simpl. now rewrite Hpool. }
  assert (Hquiet : backend_calls tr1 = backend_calls tr).
  { revert Hd.
    unfold ImageService.resolve_session_dir,
      ImageService._generate_session_directory, ImageService.makedirs,
      bind, ret.
    destruct (ImageTools.to_path W out) as [p|];
      repeat (destruct (fs_makedirs W _ _); [discriminate|]);
      intros [= _ <-]; unfold backend_calls; rewrite !filter_app;
      simpl; now rewrite ?app_nil_r. }
  repeat split.
  - exact Hquiet.
  - now apply Hgen.
  - now apply Hedit.
  - unfold ImageTools.bulk_generate_images, bind. simpl.
    rewrite Hgen by apply image_service_pool.
    unfold ImageTools.manifest, ImageTools.reported_session_dir. simpl.
    destruct (ImageTools.to_path W out); reflexivity.
  - unfold ImageTools.bulk_edit_images, bind. simpl.
    rewrite Hedit by apply image_service_pool.
    unfold ImageTools.manifest, ImageTools.reported_session_dir. simpl.
    destruct (ImageTools.to_path W out); reflexivity.
Qed.

Lemma in_order_perm (T : Type) (l : list T) : Permutation (in_order T l) l.
Proof. apply Permutation_refl. Defined.

Lemma empty_batch_returns_empty_results_witness :
  backend_calls [FsMakedirs "generated_images/session_20240101_120000";
                 FsMakedirs "generated_images/session_20240101_120000"]
  = backend_calls []
  /\ ImageService.bulk_generate_images studio in_order (ImageService.init 10)
       [] "gpt-image-1" None []
     = (inr [], [FsMakedirs "generated_images/session_20240101_120000";
                 FsMakedirs "generated_images/session_20240101_120000"])
  /\ ImageTools.bulk_generate_images studio in_order
       (ImageTools.mkBulkGenerateImagesInput [] None "gpt-image-1") []
     = (inr (ImageTools.ToolManifest
               (ImageTools.mkManifest true [] [] None
                  "Generated 0 images out of 0 requested")),
        [FsMakedirs "generated_images/session_20240101_120000";
         FsMakedirs "generated_images/session_20240101_120000"]).
Proof.
  destruct (empty_batch_returns_empty_results studio in_order in_order_perm
              (ImageService.init 10) "gpt-image-1" None []
              "generated_images/session_20240101_120000"
              [FsMakedirs "generated_images/session_20240101_120000";
               FsMakedirs "generated_images/session_20240101_120000"])
    as (Hquiet & Hgen & _ & Htool & _).
  - reflexivity.
  - reflexivity.
  - split; [exact Hquiet | split; [exact Hgen | exact Htool]].
Defined.

(** C5, as the claim has it, fails: on the empty prompt list nothing
    is raised; the batch completes with an empty, successful
    manifest. *)
Lemma empty_batch_is_not_rejected :
  ImageService.bulk_generate_images studio in_order (ImageService.init 10)
    [] "gpt-image-1" (Some "out") []
  = (inr [], [FsMakedirs "out"])
  /\ ImageTools.bulk_generate_images studio in_order
       (ImageTools.mkBulkGenerateImagesInput [] (Some "out") "gpt-image-1") []
     = (inr (ImageTools.ToolManifest
               (ImageTools.mkManifest true [] [] (Some "out")
                  "Generated 0 images out of 0 requested")),
        [FsMakedirs "out"])
  /\ ImageTools.bulk_edit_images studio in_order
       (ImageTools.mkBulkEditImagesInput [] [] (Some "out") "gpt-image-1") []
     = (inr (ImageTools.ToolManifest
               (ImageTools.mkManifest true [] [] (Some "out")
                  "Edited 0 images out of 0 requested")),
        [FsMakedirs "out"]).
Proof. repeat split. Qed.

(* ----------------------------------------------------------------- *)
(** ** Output paths *)

Lemma enumerate_from_nth {A} (l : list A) (k i : nat) (a : A) :
  nth_error l i = Some a ->
  nth_error (ImageService.enumerate_from k l) i = Some (k + i, a).
Proof.
  revert k i. induction l as [|x l IH]; intros k [|i] H; simpl in *;
    try discriminate.
  - injection H as ->. now rewrite Nat.add_0_r.
  - rewrite (IH (S k) i H). f_equal. f_equal. lia.
Qed.

Lemma gen_tasks_nth (d : Path) (model : string) (prompts : list string)
    (i : nat) (prompt : string) :
  nth_error prompts i = Some prompt ->
  nth_error (ImageService.gen_tasks d model prompts) i
  = Some (prompt, model, i, path_for d "image" i).
Proof.
  intros H. unfold ImageService.gen_tasks, ImageService.enumerate.
  rewrite nth_error_map, (enumerate_from_nth _ 0 i prompt H). reflexivity.
Qed.

Lemma edit_tasks_nth (d : Path) (prompts : list string)
    (image_paths_list : list (list string)) (i : nat)
    (prompt : string) (paths : list string) :
  nth_error prompts i = Some prompt ->
  nth_error image_paths_list i = Some paths ->
  nth_error (ImageService.edit_tasks d prompts image_paths_list) i
  = Some (prompt, paths, i, path_for d "edited_image" i).
Proof.
  intros Hp Hs. unfold ImageService.edit_tasks, ImageService.enumerate.
  assert (Hc : nth_error (combine prompts image_paths_list) i
               = Some (prompt, paths)).
  { revert i image_paths_list Hp Hs.
    induction prompts as [|x l IH]; intros [|i] [|y ys] Hp Hs; simpl in *;
      try discriminate.
    - congruence.
    - now apply IH. }
  rewrite nth_error_map, (enumerate_from_nth _ 0 i _ Hc). reflexivity.
Qed.

(** C6, as the code has it.  The task at position [i] of a batch
    carries index [i] and the path [session_dir / image_{i:03d}.png]
    (or [edited_image_{i:03d}.png]); the number is written with at
    least three digits and reads back as [i]; distinct indices give
    distinct paths; and among indices below 1000 the paths compare as
    the indices do. *)
Theorem output_paths_are_deterministic :
  forall (d : Path) (model : string) (prompts : list string)
         (image_paths_list : list (list string)),
    (forall i prompt,
        nth_error prompts i = Some prompt ->
        nth_error (ImageService.gen_tasks d model prompts) i
        = Some (prompt, model, i, path_for d "image" i))
    /\ (forall i prompt paths,
           nth_error prompts i = Some prompt ->
           nth_error image_paths_list i = Some paths ->
           nth_error (ImageService.edit_tasks d prompts image_paths_list) i
           = Some (prompt, paths, i, path_for d "edited_image" i))
    /\ (forall prefix i,
           path_for d prefix i
           = path_div d (prefix ++ "_" ++ PyStr.fmt_03d i ++ ".png")
           /\ 3 <= String.length (PyStr.fmt_03d i)
           /\ read_nat (PyStr.fmt_03d i) = Some i)
    /\ (String.eqb d "." = false -> PyStr.ends_with_slash d = false ->
        forall prefix i,
          path_for d prefix i
          = d ++ "/" ++ prefix ++ "_" ++ PyStr.fmt_03d i ++ ".png")
    /\ (forall prefix i j,
           i <> j -> path_for d prefix i <> path_for d prefix j)
    /\ (forall prefix i j,
           i < 1000 -> j < 1000 ->
           String.compare (path_for d prefix i) (path_for d prefix j)
           = Nat.compare i j).
Proof.
  intros d model prompts ipl. repeat split.
  - intros i prompt. apply gen_tasks_nth.
  - intros i prompt paths. apply edit_tasks_nth.
  - apply fmt_03d_width.
  - apply read_fmt_03d.
  - intros Hdot Hslash prefix i. unfold path_for, path_div, file_name.
    now rewrite Hdot, Hslash.
  - intros prefix i j Hne Heq. apply Hne. eapply path_for_inj, Heq.
  - intros prefix i j. apply path_for_compare.
Qed.

Lemma output_paths_are_deterministic_witness :
  nth_error (ImageService.gen_tasks "out" "gpt-image-1"
               ["a"; "b"; "c"; "d"]) 3
  = Some ("d", "gpt-image-1", 3, "out/image_003.png")
  /\ path_for "out" "image" 42 = "out/image_042.png"
  /\ path_for "out" "image" 3 <> path_for "out" "image" 42
  /\ String.compare (path_for "out" "image" 3) (path_for "out" "image" 42)
     = Lt.
Proof.
  destruct (output_paths_are_deterministic "out" "gpt-image-1"
              ["a"; "b"; "c"; "d"] [])
    as (Hgen & _ & _ & Hplain & Hinj & Hord).
  split; [|split; [|split]].
  - apply (Hgen 3 "d"). reflexivity.
  - apply (Hplain eq_refl eq_refl "image" 42).
  - apply (Hinj "image" 3 42). lia.
  - apply (Hord "image" 3 42); lia.
Defined.

(** C6, as the claim has it, fails at the thousandth file: index 999
    comes before index 1000, yet its name sorts after. *)
Lemma three_digits_misorder_index_1000 :
  999 < 1000
  /\ path_for "out" "image" 999 = "out/image_999.png"
  /\ path_for "out" "image" 1000 = "out/image_1000.png"
  /\ String.compare (path_for "out" "image" 999)
                    (path_for "out" "image" 1000) = Gt.
Proof. repeat split; [lia | vm_compute; reflexivity ..]. Qed.

(* ----------------------------------------------------------------- *)
(** ** The reported session directory *)

Section SessionDir.

Import ImageService.

Lemma rfind_slash_app (a b : string) :
  PyStr.rfind_slash b = None ->
  PyStr.rfind_slash (a ++ "/" ++ b) = Some (String.length a).
Proof.
  intros Hb. induction a as [|c a IH]; simpl.
  - now rewrite Hb.
  - simpl in IH. now rewrite IH.
Qed.

Lemma substring_prefix (a b : string) :
  substring 0 (String.length a) (a ++ b) = a.
Proof.
  induction a as [|c a IH]; simpl.
  - now destruct b.
  - now rewrite IH.
Qed.

Lemma rsplit_slash_head_app (a b : string) :
  PyStr.rfind_slash b = None ->
  PyStr.rsplit_slash_head (a ++ "/" ++ b) = a.
Proof.
  intros Hb. unfold PyStr.rsplit_slash_head.
  rewrite rfind_slash_app by exact Hb. apply substring_prefix.
Qed.

Lemma ends_with_slash_app (p c : string) :
  c <> "" -> PyStr.ends_with_slash (p ++ c) = PyStr.ends_with_slash c.
Proof.
  intros Hc. induction p as [|x p IH]; [reflexivity|].
  simpl. destruct (p ++ c) eqn:E; [|exact IH].
  destruct p; simpl in E; [contradiction | discriminate].
Qed.

Lemma session_name_no_trailing_slash (stamp : string) :
  PyStr.ends_with_slash stamp = false ->
  PyStr.ends_with_slash ("generated_images/session_" ++ stamp) = false.
Proof.
  intros H. destruct stamp as [|c s]; [reflexivity|].
  rewrite ends_with_slash_app by discriminate. exact H.
Qed.

Lemma resolve_fresh_dir (W : World) (tr : Trace) (d : Path) (tr1 : Trace) :
  resolve_session_dir W None tr = (inr d, tr1) ->
  d = "generated_images/session_" ++ clock W tr.
Proof.
  unfold resolve_session_dir, _generate_session_directory, bind, makedirs,
    ret.
  destruct (fs_makedirs W tr _); [discriminate|].
  destruct (fs_makedirs W _ _); [discriminate|].
  now intros [= <- _].
Qed.

Lemma reported_dir_of_first (d : Path) (prefix : string)
    (r : TaskResult) (rest : list TaskResult) :
  batch_record d prefix r ->
  (success r = false ->
   ImageTools.reported_session_dir None (r :: rest) = None)
  /\ (success r = true ->
      ImageTools.reported_session_dir None (r :: rest)
      = Some (PyStr.rsplit_slash_head (path_for d prefix (index r)))).
Proof.
  intros Hrec. simpl. split; intros Hs; rewrite Hs; [reflexivity|].
  now rewrite (batch_record_success d prefix r Hrec Hs).
Qed.

Lemma first_path_splits_back (d : Path) (prefix : string) :
  String.eqb d "." = false ->
  PyStr.ends_with_slash d = false ->
  PyStr.rfind_slash (file_name prefix 0) = None ->
  PyStr.rsplit_slash_head (path_for d prefix 0) = d.
Proof.
  intros Hdot Hslash Hname. unfold path_for, path_div.
  rewrite Hdot, Hslash. now apply rsplit_slash_head_app.
Qed.

End SessionDir.

Lemma manifest_reports_by_first_task (W : World) (verb : string) (n : nat)
    (prefix : string) (tr : Trace) (d : Path) (tr1 : Trace)
    (rs : list ImageService.TaskResult) (k : nat) :
  PyStr.rfind_slash (file_name prefix 0) = None ->
  ImageService.resolve_session_dir W None tr = (inr d, tr1) ->
  map ImageService.index rs = seq 0 k ->
  Forall (batch_record d prefix) rs ->
  reports_by_first_task d prefix (clock W tr) k
    (ImageTools.manifest verb n None rs).
Proof.
  intros Hname Hd Hidx Hrec.
  apply resolve_fresh_dir in Hd.
  split; [exact Hd|]. split; [exact Hidx|]. split.
  - intros ->. destruct rs; [reflexivity | discriminate].
  - intros Hk. destruct rs as [|r rest]; [destruct k; [lia | discriminate]|].
    assert (Hr : batch_record d prefix r) by now inversion Hrec.
    assert (Hi : ImageService.index r = 0).
    { destruct k; simpl in Hidx; [discriminate | now injection Hidx]. }
    exists r, rest. split; [reflexivity|]. split; [exact Hi|].
    destruct (reported_dir_of_first d prefix r rest Hr) as [Hfail Hok].
    split; [exact Hfail|]. intros Hs.
    pose proof (batch_record_success d prefix r Hr Hs) as Hout.
    rewrite Hi in Hout. specialize (Hok Hs). rewrite Hi in Hok.
    split; [exact Hout|]. split; [exact Hok|].
    intros Hstamp. cbn [ImageTools.session_dir ImageTools.manifest] in *.
    rewrite Hok, first_path_splits_back; auto.
    + rewrite Hd. reflexivity.
    + rewrite Hd. now apply session_name_no_trailing_slash.
Qed.

(** C8.  When the caller names no output directory (none, or the
    empty string) the service allocates
    [generated_images/session_<stamp>], but the manifest reports a
    [session_dir] only through the record of the first task of the
    batch, which heads the list of records: when the first task
    failed it reports none, whatever the later tasks did; when it
    succeeded it reports its output path cut at the last slash, which
    is the allocated directory.  An empty batch reports none. *)
Theorem session_dir_is_read_off_the_first_record :
  forall (W : World) (as_completed : forall T : Type, list T -> list T),
    (forall (T : Type) (l : list T), Permutation (as_completed T l) l) ->
    (forall (input : ImageTools.BulkGenerateImagesInput)
            (tr : Trace) (d : Path) (tr1 : Trace),
        truthy (ImageTools.bg_output_dir input) = None ->
        ImageService.resolve_session_dir W None tr = (inr d, tr1) ->
        exists m tr2,
          ImageTools.bulk_generate_images W as_completed input tr
          = (inr (ImageTools.ToolManifest m), tr2)
          /\ reports_by_first_task d "image" (clock W tr)
               (List.length (ImageTools.bg_prompts input)) m)
    /\ (forall (input : ImageTools.BulkEditImagesInput)
               (tr : Trace) (d : Path) (tr1 : Trace),
           truthy (ImageTools.be_output_dir input) = None ->
           ImageTools.first_missing_indexed W
             (ImageService.enumerate (ImageTools.be_image_paths_list input))
             tr = (inr None, tr) ->
           List.length (ImageTools.be_prompts input)
           = List.length (ImageTools.be_image_paths_list input) ->
           ImageService.resolve_session_dir W None tr = (inr d, tr1) ->
           exists m tr2,
             ImageTools.bulk_edit_images W as_completed input tr
             = (inr (ImageTools.ToolManifest m), tr2)
             /\ reports_by_first_task d "edited_image" (clock W tr)
                  (List.length (ImageTools.be_prompts input)) m).
Proof.
  intros W ac Hperm. split.
  - intros input tr d tr1 Hnone Hd.
    assert (Hp : ImageTools.to_path W (ImageTools.bg_output_dir input) = None)
      by (unfold ImageTools.to_path; now rewrite Hnone).
    rewrite <- Hp in Hd.
    destruct (tool_bulk_generate_spec W ac Hperm input tr d tr1 Hd)
      as (rs & tr2 & Hrun & Hidx & Hrec).
    rewrite Hp in Hd.
    do 2 eexists. split; [exact Hrun|]. rewrite Hp.
    exact (manifest_reports_by_first_task W _ _ "image" tr d tr1 rs _
             eq_refl Hd Hidx Hrec).
  - intros input tr d tr1 Hnone Hmiss Hlen Hd.
    assert (Hp : ImageTools.to_path W (ImageTools.be_output_dir input) = None)
      by (unfold ImageTools.to_path; now rewrite Hnone).
    rewrite <- Hp in Hd.
    destruct (tool_bulk_edit_spec W ac Hperm input tr d tr1 Hmiss Hlen Hd)
      as (rs & tr2 & Hrun & Hidx & Hrec).
    rewrite Hp in Hd.
    do 2 eexists. split; [exact Hrun|]. rewrite Hp.
    exact (manifest_reports_by_first_task W _ _ "edited_image" tr d tr1 rs _
             eq_refl Hd Hidx Hrec).
Qed.

Lemma session_dir_is_read_off_the_first_record_witness :
  (exists m tr2,
      ImageTools.bulk_generate_images studio last_first
        (ImageTools.mkBulkGenerateImagesInput
           ["a dog meme"; "a cat meme"] None "gpt-image-1") []
      = (inr (ImageTools.ToolManifest m), tr2)
      /\ reports_by_first_task "generated_images/session_20240101_120000"
           "image" "20240101_120000" 2 m)
  /\ (exists m tr2,
         ImageTools.bulk_edit_images studio last_first
           (ImageTools.mkBulkEditImagesInput
              ["add a hat"] [["a.png"]] (Some "") "gpt-image-1") []
         = (inr (ImageTools.ToolManifest m), tr2)
         /\ reports_by_first_task "generated_images/session_20240101_120000"
              "edited_image" "20240101_120000" 1 m).
Proof.
  destruct (session_dir_is_read_off_the_first_record studio last_first
              last_first_perm) as [Hgen Hedit].
  split.
  - apply (Hgen (ImageTools.mkBulkGenerateImagesInput
                   ["a dog meme"; "a cat meme"] None "gpt-image-1") []
                "generated_images/session_20240101_120000"
                [FsMakedirs "generated_images/session_20240101_120000";
                 FsMakedirs "generated_images/session_20240101_120000"]);
      reflexivity.
  - apply (Hedit (ImageTools.mkBulkEditImagesInput
                    ["add a hat"] [["a.png"]] (Some "") "gpt-image-1") []
                 "generated_images/session_20240101_120000"
                 [FsMakedirs "generated_images/session_20240101_120000";
                  FsMakedirs "generated_images/session_20240101_120000"]);
      reflexivity.
Defined.

(** The scenario of C8 run to its end: the first prompt is refused,
    the second image is written into the session directory, and the
    manifest reports no directory. *)
Example first_task_failed_run :
  fst (ImageTools.bulk_generate_images studio last_first
         (ImageTools.mkBulkGenerateImagesInput
            ["a dog meme"; "a cat meme"] None "gpt-image-1") [])
  = inr (ImageTools.ToolManifest
           (ImageTools.mkManifest false
              [ImageService.mkResult 0 false None (Some "rate limited");
               ImageService.mkResult 1 true
                 (Some "generated_images/session_20240101_120000/image_001.png")
                 None]
              [Some "generated_images/session_20240101_120000/image_001.png"]
              None
              "Generated 1 images out of 2 requested")).
Proof. reflexivity. Qed.

(* ----------------------------------------------------------------- *)
(** ** Where the code departs from its documentation *)

(** C9 on the code.  [bulk_edit_images] accepts a model and drops it:
    its task tuples have no slot for it and [_worker_edit_image] calls
    [edit_image] without one.  Every edit request of a batch asked
    for ["dall-e-2"] names ["gpt-image-1"], and batches that differ
    only in the model run identically. *)
Theorem bulk_edit_ignores_the_model :
  edit_models
    (snd (ImageService.bulk_edit_images studio in_order
            (ImageService.init 10) ["add a hat"; "add a scarf"]
            [["a.png"]; ["b.png"]] "dall-e-2" (Some "out") []))
  = ["gpt-image-1"; "gpt-image-1"]
  /\ (forall (W : World) (as_completed : forall T : Type, list T -> list T)
             (svc : ImageService.OpenAIImageService)
             (prompts : list string) (image_paths_list : list (list string))
             (model model' : string) (output_dir : option Path) (tr : Trace),
         ImageService.bulk_edit_images W as_completed svc prompts
           image_paths_list model output_dir tr
         = ImageService.bulk_edit_images W as_completed svc prompts
             image_paths_list model' output_dir tr).
Proof. split; [vm_compute|]; reflexivity. Qed.

(** The generation path does forward the model. *)
Example bulk_generate_forwards_the_model :
  filter is_api_call
    (snd (ImageService.bulk_generate_images studio in_order
            (ImageService.init 10) ["a cat meme"] "dall-e-3" (Some "out") []))
  = [ApiGenerate "dall-e-3" "a cat meme"].
Proof. reflexivity. Qed.

Lemma open_loop_sends_nothing (W : World) (paths : list string) (tr : Trace) :
  backend_calls
    (snd (for_each (fun path => ImageService.py_open W path "rb") paths tr))
  = backend_calls tr.
Proof.
  revert tr. induction paths as [|p paths IH]; intros tr; simpl;
    [reflexivity|].
  unfold bind, ImageService.py_open.
  destruct (fs_open W tr p "rb"); [reflexivity|].
  specialize (IH (tr ++ [FsOpen (List.length tr) p "rb"])%list).
  destruct (for_each _ paths _) as [[e|hs] tr']; simpl in *; rewrite IH;
    unfold backend_calls; rewrite filter_app, length_app; simpl; lia.
Qed.

(** The part of C10 that holds: when a source image cannot be opened,
    [edit_image] raises the error of [open] without having sent a
    request. *)
Lemma edit_image_fails_before_request (W : World) (prompt : string)
    (paths : list string) (model : string) (o : option string)
    (tr : Trace) (e : Exn) (tr' : Trace) :
  for_each (fun path => ImageService.py_open W path "rb") paths tr
  = (inl e, tr') ->
  ImageService.edit_image W prompt paths model o tr = (inl e, tr')
  /\ backend_calls tr' = backend_calls tr.
Proof.
  intros H. split.
  - unfold ImageService.edit_image, bind. now rewrite H.
  - pose proof (open_loop_sends_nothing W paths tr) as Hn.
    now rewrite H in Hn.
Qed.

(** C10 on the code.  The source images are opened before the [try]
    whose [finally] closes them.  With a first image that opens and a
    second that does not, the call raises before any request, as
    claimed, but the first file is never closed.  The tool checks
    only that the paths exist, so a file that exists and cannot be
    read gives the same leak through the tool. *)
Theorem edit_image_leaks_on_failed_open :
  ImageService.edit_image studio "add a hat" ["a.png"; "missing.png"]
    "gpt-image-1" (Some "out/hat.png") []
  = (inl (no_such_file "missing.png"), [FsOpen 0 "a.png" "rb"])
  /\ backend_calls [FsOpen 0 "a.png" "rb"] = 0
  /\ open_handles [FsOpen 0 "a.png" "rb"] = [0]
  /\ ImageTools.edit_image studio
       (ImageTools.mkEditImageInput "add a hat" ["a.png"; "locked.png"]
          (Some "out/hat.png") "gpt-image-1") []
     = (inl (permission_denied "locked.png"), [FsOpen 0 "a.png" "rb"]).
Proof. repeat split. Qed.

(** When every image opens, the [finally] does its work, on success
    and when the endpoint refuses. *)
Example edit_image_closes_after_success :
  open_handles
    (snd (ImageService.edit_image studio "add a hat" ["a.png"; "b.png"]
            "gpt-image-1" (Some "out/hat.png") []))
  = [].
Proof. reflexivity. Qed.

Example edit_image_closes_after_refusal :
  ImageService.edit_image studio "a dog meme" ["a.png"; "b.png"]
    "gpt-image-1" (Some "out/dog.png") []
  = (inl rate_limited,
     [FsOpen 0 "a.png" "rb"; FsOpen 1 "b.png" "rb";
      ApiEdit "gpt-image-1" "a dog meme" [0; 1]; FsClose 0; FsClose 1]).
Proof. reflexivity. Qed.

(** The scenario of the specification: two prompts, the second one
    refused with "rate limited". *)
Example cat_and_dog_run :
  fst (ImageTools.bulk_generate_images studio last_first
         (ImageTools.mkBulkGenerateImagesInput
            ["a cat meme"; "a dog meme"] (Some "memes") "gpt-image-1") [])
  = inr (ImageTools.ToolManifest
           (ImageTools.mkManifest false
              [ImageService.mkResult 0 true (Some "memes/image_000.png") None;
               ImageService.mkResult 1 false None (Some "rate limited")]
              [Some "memes/image_000.png"]
              (Some "memes")
              "Generated 1 images out of 2 requested")).
Proof. reflexivity. Qed.

(* ================================================================= *)
(** * Further properties of the code *)

(* ----------------------------------------------------------------- *)
(** ** What a call adds to the trace *)

Section TraceFacts.

Lemma open_handles_app (a b : Trace) :
  open_handles (a ++ b)%list
  = (filter (fun h => negb (existsb (closes h) b)) (open_handles a)
       ++ open_handles b)%list.
Proof.
  induction a as [|e a IH]; [reflexivity|].
  destruct e; simpl; try exact IH.
  rewrite existsb_app.
  destruct (existsb (closes h) a); simpl; [exact IH|].
  destruct (existsb (closes h) b); simpl; [exact IH|].
  now rewrite IH.
Qed.

Lemma tidy_addition (tr ev : Trace) :
  open_handles ev = [] -> nothing_left_open tr (tr ++ ev)%list.
Proof.
  intros H. unfold nothing_left_open.
  rewrite open_handles_app, H, app_nil_r. apply incl_filter.
Qed.

Lemma nothing_left_open_refl (tr : Trace) : nothing_left_open tr tr.
Proof. apply incl_refl. Qed.

Lemma nothing_left_open_trans (a b c : Trace) :
  nothing_left_open a b -> nothing_left_open b c -> nothing_left_open a c.
Proof. unfold nothing_left_open. intros H1 H2. eapply incl_tran; eauto. Qed.

Lemma requests_app (a b : Trace) :
  requests (a ++ b)%list = (requests a ++ requests b)%list.
Proof. apply filter_app. Qed.

Lemma backend_calls_requests (tr : Trace) :
  backend_calls tr = List.length (requests tr).
Proof. reflexivity. Qed.

End TraceFacts.

Ltac trace_shape :=
  first
    [ exists (@nil Event); split;
      [ simpl; now rewrite app_nil_r | simpl; auto ]
    | eexists; split;
      [ rewrite <- ?app_assoc; simpl; reflexivity
      | simpl; rewrite ?Nat.eqb_refl; simpl; auto ] ].

Section SingleCalls.

Variable W : World.

(** Everything [generate_image] can add to a trace: one request,
    then nothing, or the directory, or the directory and a file that
    is opened, perhaps written, and closed. *)
Lemma generate_image_addition (prompt model : string)
    (o : option string) (tr : Trace) :
  exists ev,
    snd (ImageService.generate_image W prompt model o tr) = (tr ++ ev)%list
    /\ (open_handles ev = []
        /\ requests ev = [ApiGenerate model prompt]).
Proof.
  unfold ImageService.generate_image, ImageService.images_generate,
    ImageService.base64_b64decode, ImageService.makedirs,
    ImageService.py_open, ImageService.py_write, ImageService.py_close,
    emit, try_finally, bind, ret.
  destruct (api_generate W tr model prompt) as [e|b64]; [trace_shape|].
  destruct (b64decode W b64) as [e|bytes]; [trace_shape|].
  destruct (truthy o) as [p|]; [|trace_shape].
  destruct (fs_makedirs W _ _) as [e|]; [trace_shape|].
  destruct (fs_open W _ _ _) as [e|]; [trace_shape|].
  destruct (fs_write W _ _ _) as [e|]; trace_shape.
Qed.

End SingleCalls.

Section LoopFacts.

(** A loop whose body leaves no file open leaves none open, however
    it ends. *)
Lemma for_each_leaves_nothing_open {A B} (f : A -> M B) :
  (forall a tr, nothing_left_open tr (snd (f a tr))) ->
  forall l tr, nothing_left_open tr (snd (for_each f l tr)).
Proof.
  intros Hf. induction l as [|a l IH]; intros tr; simpl.
  - apply nothing_left_open_refl.
  - unfold bind. pose proof (Hf a tr) as Ha.
    destruct (f a tr) as [[e|b] tr1]; simpl in *; [exact Ha|].
    pose proof (IH tr1) as Hl.
    destruct (for_each f l tr1) as [[e|bs] tr2]; simpl in *;
      eapply nothing_left_open_trans; eauto.
Qed.

(** A loop whose body always returns sends the requests of its
    bodies, in order. *)
Lemma for_each_requests {A B} (f : A -> M B) (req : A -> list Event) :
  (forall a tr, exists b tr',
      f a tr = (inr b, tr') /\ requests tr' = (requests tr ++ req a)%list) ->
  forall l tr,
    requests (snd (for_each f l tr))
    = (requests tr ++ flat_map req l)%list.
Proof.
  intros Hf. induction l as [|a l IH]; intros tr; simpl.
  - now rewrite app_nil_r.
  - unfold bind. destruct (Hf a tr) as (b & tr1 & Hb & Hreq). rewrite Hb.
    specialize (IH tr1).
    destruct (for_each f l tr1) as [[e|bs] tr2]; simpl in *;
      now rewrite IH, Hreq, app_assoc.
Qed.

(** A loop whose body sends at most one request sends at most one
    per element. *)
Lemma for_each_at_most_one {A B} (f : A -> M B) :
  (forall a tr, backend_calls (snd (f a tr)) <= S (backend_calls tr)) ->
  forall l tr,
    backend_calls (snd (for_each f l tr))
    <= backend_calls tr + List.length l.
Proof.
  intros Hf. induction l as [|a l IH]; intros tr; simpl.
  - lia.
  - unfold bind. pose proof (Hf a tr) as Ha.
    destruct (f a tr) as [[e|b] tr1]; simpl in *; [lia|].
    specialize (IH tr1).
    destruct (for_each f l tr1) as [[e|bs] tr2]; simpl in *; lia.
Qed.

End LoopFacts.

Section BulkTraces.

Import ImageService.

Variable W : World.
Variable as_completed : forall T : Type, list T -> list T.

Lemma resolve_addition (output_dir : option Path) (tr : Trace) :
  exists ev,
    snd (resolve_session_dir W output_dir tr) = (tr ++ ev)%list
    /\ (open_handles ev = [] /\ requests ev = []).
Proof.
  unfold resolve_session_dir, _generate_session_directory, makedirs, bind,
    ret.
  destruct output_dir as [d|].
  - destruct (fs_makedirs W tr d); trace_shape.
  - destruct (fs_makedirs W tr _); [trace_shape|].
    destruct (fs_makedirs W _ _); trace_shape.
Qed.

Lemma worker_generate_trace (t : GenTask) (tr : Trace) :
  snd (_worker_generate_image W t tr)
  = snd (generate_image W (gen_task_prompt t) (gen_task_model t)
           (Some (snd t)) tr).
Proof.
  destruct t as [[[prompt model] i] o]. rewrite worker_generate_eq. simpl.
  now destruct (generate_image W prompt model (Some o) tr) as [[e|v] tr'].
Qed.

(** The body of the collecting loop, for a generation task. *)
Lemma collected_generate (t : GenTask) (tr : Trace) :
  exists r tr',
    try_except (_worker_generate_image W t)
      (fun exc => ret (failed_result (gen_task_index t) exc)) tr
    = (inr r, tr')
    /\ tr' = snd (generate_image W (gen_task_prompt t) (gen_task_model t)
                    (Some (snd t)) tr).
Proof.
  destruct (worker_generate_answers W t tr) as (r & tr' & Hr & _).
  exists r, tr'. unfold try_except. rewrite Hr. split; [reflexivity|].
  rewrite <- worker_generate_trace, Hr. reflexivity.
Qed.

Lemma gen_tasks_prompts (d : Path) (model : string) (prompts : list string) :
  map gen_task_prompt (gen_tasks d model prompts) = prompts.
Proof.
  unfold gen_tasks, enumerate. rewrite map_map. generalize 0.
  induction prompts as [|p l IH]; intros k; simpl; [reflexivity|].
  now rewrite IH.
Qed.

Lemma gen_tasks_models (d : Path) (model : string) (prompts : list string) :
  Forall (fun t => gen_task_model t = model) (gen_tasks d model prompts).
Proof.
  unfold gen_tasks. rewrite Forall_map. apply Forall_forall.
  now intros [i p] _.
Qed.

End BulkTraces.

Section EditCalls.

Import ImageService.

Variable W : World.

Lemma edit_image_unfold (prompt : string) (paths : list string)
    (model : string) (o : option string) :
  edit_image W prompt paths model o
  = (images <- for_each (fun path => py_open W path "rb") paths ;;
     try_finally (edit_body W prompt model images o)
                 (for_each py_close images ;;; ret tt))%py.
Proof. reflexivity. Qed.

Lemma edit_body_addition (prompt model : string) (images : list Handle)
    (o : option string) (tr : Trace) :
  exists ev,
    snd (edit_body W prompt model images o tr) = (tr ++ ev)%list
    /\ (open_handles ev = []
        /\ requests ev = [ApiEdit model prompt images]).
Proof.
  unfold edit_body, images_edit, base64_b64decode, makedirs, py_open,
    py_write, py_close, emit, try_finally, bind, ret.
  destruct (api_edit W tr model images prompt) as [e|b64]; [trace_shape|].
  destruct (b64decode W b64) as [e|bytes]; [trace_shape|].
  destruct (truthy o) as [p|]; [|trace_shape].
  destruct (fs_makedirs W _ _) as [e|]; [trace_shape|].
  destruct (fs_open W _ _ _) as [e|]; [trace_shape|].
  destruct (fs_write W _ _ _) as [e|]; trace_shape.
Qed.

Lemma open_loop_shape (paths : list string) (tr : Trace) :
  match for_each (fun path => py_open W path "rb") paths tr with
  | (inr hs, tr1) =>
      hs = seq (List.length tr) (List.length paths)
      /\ tr1 = (tr ++ open_events (List.length tr) paths)%list
  | (inl _, tr1) =>
      exists k, k < List.length paths
                /\ tr1 = (tr ++ open_events (List.length tr)
                                  (firstn k paths))%list
  end.
Proof.
  revert tr. induction paths as [|p paths IH]; intros tr; simpl.
  - now rewrite app_nil_r.
  - unfold bind, py_open at 1.
    destruct (fs_open W tr p "rb") as [e|].
    + exists 0. split; [lia|]. simpl. now rewrite app_nil_r.
    + specialize (IH (tr ++ [FsOpen (List.length tr) p "rb"])%list).
      rewrite length_app in IH. simpl in IH.
      rewrite Nat.add_1_r in IH.
      destruct (for_each _ paths _) as [[e|hs] tr1].
      * destruct IH as (k & Hk & ->). exists (S k). split; [lia|].
        simpl. now rewrite <- app_assoc.
      * destruct IH as [-> ->]. simpl. split; [reflexivity|].
        now rewrite <- app_assoc.
Qed.

Lemma close_loop (hs : list Handle) (tr : Trace) :
  (for_each py_close hs ;;; ret tt)%py tr
  = (inr tt, (tr ++ map FsClose hs)%list).
Proof.
  unfold bind, ret. revert tr.
  induction hs as [|h hs IH]; intros tr; simpl.
  - now rewrite app_nil_r.
  - unfold bind, py_close at 1, emit. specialize (IH (tr ++ [FsClose h])%list).
    destruct (for_each py_close hs _) as [[e|us] tr1]; [discriminate|].
    injection IH as ->. simpl. now rewrite <- app_assoc.
Qed.

Lemma open_events_handles (n : nat) (paths : list string) :
  open_handles (open_events n paths) = seq n (List.length paths)
  /\ requests (open_events n paths) = [].
Proof.
  revert n. induction paths as [|p paths IH]; intros n; simpl; [easy|].
  destruct (IH (S n)) as [Ho Hr]. split; [|exact Hr].
  assert (Hc : existsb (closes n) (open_events (S n) paths) = false).
  { clear. generalize (S n). induction paths as [|q l IH]; intros m;
      simpl; [reflexivity | apply IH]. }
  now rewrite Hc, Ho.
Qed.

Lemma closes_only (hs : list Handle) :
  open_handles (map FsClose hs) = [] /\ requests (map FsClose hs) = [].
Proof. induction hs as [|h hs [IH1 IH2]]; simpl; auto. Qed.

Lemma closed_by_close_loop (hs : list Handle) (h : Handle) :
  In h hs -> existsb (closes h) (map FsClose hs) = true.
Proof.
  intros Hin. apply existsb_exists. exists (FsClose h). split.
  - now apply in_map.
  - simpl. apply Nat.eqb_refl.
Qed.

Lemma filter_none {A} (f : A -> bool) (l : list A) :
  (forall x, In x l -> f x = false) -> filter f l = [].
Proof.
  induction l as [|x l IH]; simpl; intros H; [reflexivity|].
  rewrite (H x) by now left. apply IH. intros y Hy. apply H. now right.
Qed.

(** When every source image opened, the whole call adds the opens,
    the work of the [try] block and the closes, and these balance. *)
Lemma edit_image_addition (prompt : string) (paths : list string)
    (model : string) (o : option string) (tr : Trace)
    (hs : list Handle) (tr1 : Trace) :
  for_each (fun path => py_open W path "rb") paths tr = (inr hs, tr1) ->
  exists ev,
    snd (edit_image W prompt paths model o tr) = (tr ++ ev)%list
    /\ (open_handles ev = []
        /\ requests ev = [ApiEdit model prompt hs]).
Proof.
  intros Hopen. rewrite edit_image_unfold. unfold bind at 1.
  rewrite Hopen. unfold try_finally.
  destruct (edit_body_addition prompt model hs o tr1) as (B & HB & HoB & HrB).
  destruct (edit_body W prompt model hs o tr1) as [r trb]. simpl in HB.
  subst trb. rewrite close_loop.
  pose proof (open_loop_shape paths tr) as Hshape. rewrite Hopen in Hshape.
  destruct Hshape as [Hhs ->].
  destruct (open_events_handles (List.length tr) paths) as [HoO HrO].
  destruct (closes_only hs) as [HoC HrC].
  exists (open_events (List.length tr) paths ++ B ++ map FsClose hs)%list.
  split; [|split].
  - destruct r; simpl; now rewrite <- !app_assoc.
  - rewrite open_handles_app, HoO, <- Hhs.
    rewrite open_handles_app, HoB, HoC. simpl. rewrite app_nil_r.
    apply filter_none. intros h Hh.
    rewrite existsb_app, (closed_by_close_loop hs h Hh).
    now rewrite orb_true_r.
  - now rewrite !requests_app, HrO, HrB, HrC.
Qed.

End EditCalls.

(* ----------------------------------------------------------------- *)
(** ** Requests and open files of a batch *)

Section BulkCases.

Import ImageService.

Variable W : World.
Variable as_completed : forall T : Type, list T -> list T.

Lemma bulk_generate_cases (svc : OpenAIImageService)
    (prompts : list string) (model : string) (output_dir : option Path)
    (tr : Trace) :
  bulk_generate_images W as_completed svc prompts model output_dir tr
  = match resolve_session_dir W output_dir tr with
    | (inl e, tr1) => (inl e, tr1)
    | (inr d, tr1) =>
        if (max_workers svc <=? 0)%Z
        then (inl (mkExn "ValueError" "max_workers must be greater than 0"),
              tr1)
        else
          match for_each (collect_generate W)
                  (as_completed _ (gen_tasks d model prompts)) tr1 with
          | (inl e, tr2) => (inl e, tr2)
          | (inr rs, tr2) => (inr (sort_by_index rs), tr2)
          end
    end.
Proof.
  unfold bulk_generate_images, run_pool, thread_pool. unfold bind at 1.
  destruct (resolve_session_dir W output_dir tr) as [[e|d] tr1];
    [reflexivity|].
  unfold bind, raise, ret.
  destruct (max_workers svc <=? 0)%Z; [reflexivity|].
  fold (bind (A:=TaskResult) (B:=list TaskResult)).
  unfold collect_generate.
  now destruct (for_each _ _ tr1) as [[e|rs] tr2].
Qed.

Lemma bulk_edit_cases (svc : OpenAIImageService)
    (prompts : list string) (image_paths_list : list (list string))
    (model : string) (output_dir : option Path) (tr : Trace) :
  bulk_edit_images W as_completed svc prompts image_paths_list model
    output_dir tr
  = if negb (List.length prompts =? List.length image_paths_list)%nat
    then (inl (mkExn "ValueError"
                 "Number of prompts must match number of image path lists"),
          tr)
    else
      match resolve_session_dir W output_dir tr with
      | (inl e, tr1) => (inl e, tr1)
      | (inr d, tr1) =>
          if (max_workers svc <=? 0)%Z
          then (inl (mkExn "ValueError"
                       "max_workers must be greater than 0"), tr1)
          else
            match for_each (collect_edit W)
                    (as_completed _ (edit_tasks d prompts image_paths_list))
                    tr1 with
            | (inl e, tr2) => (inl e, tr2)
            | (inr rs, tr2) => (inr (sort_by_index rs), tr2)
            end
      end.
Proof.
  unfold bulk_edit_images, run_pool, thread_pool.
  destruct (negb _); [reflexivity|]. unfold bind at 1.
  destruct (resolve_session_dir W output_dir tr) as [[e|d] tr1];
    [reflexivity|].
  unfold bind, raise, ret.
  destruct (max_workers svc <=? 0)%Z; [reflexivity|].
  fold (bind (A:=TaskResult) (B:=list TaskResult)).
  unfold collect_edit.
  now destruct (for_each _ _ tr1) as [[e|rs] tr2].
Qed.

End BulkCases.

Section BulkRequests.

Import ImageService.

Variable W : World.
Variable as_completed : forall T : Type, list T -> list T.

Lemma collect_generate_spec (t : GenTask) (tr : Trace) :
  exists r tr',
    collect_generate W t tr = (inr r, tr')
    /\ exists ev,
         tr' = (tr ++ ev)%list
         /\ open_handles ev = []
         /\ requests ev = [ApiGenerate (gen_task_model t) (gen_task_prompt t)].
Proof.
  destruct (collected_generate W t tr) as (r & tr' & Hr & Htr).
  exists r, tr'. split; [exact Hr|].
  destruct (generate_image_addition W (gen_task_prompt t) (gen_task_model t)
              (Some (snd t)) tr) as (ev & Hev & Ho & Hq).
  exists ev. rewrite Htr. auto.
Qed.

Lemma edit_image_at_most_one (prompt : string) (paths : list string)
    (model : string) (o : option string) (tr : Trace) :
  backend_calls (snd (edit_image W prompt paths model o tr))
  <= S (backend_calls tr).
Proof.
  destruct (for_each (fun path => py_open W path "rb") paths tr)
    as [[e|hs] tr1] eqn:Hopen.
  - destruct (edit_image_fails_before_request W prompt paths model o tr e tr1
                Hopen) as [-> Hn].
    simpl. lia.
  - destruct (edit_image_addition W prompt paths model o tr hs tr1 Hopen)
      as (ev & -> & _ & Hq).
    rewrite !backend_calls_requests, requests_app, Hq, length_app. simpl. lia.
Qed.

Lemma collect_edit_spec (t : EditTask) (tr : Trace) :
  backend_calls (snd (collect_edit W t tr)) <= S (backend_calls tr).
Proof.
  unfold collect_edit, try_except.
  destruct t as [[[prompt paths] i] o]. rewrite worker_edit_eq.
  pose proof (edit_image_at_most_one prompt paths default_model (Some o) tr)
    as H.
  now destruct (edit_image W prompt paths default_model (Some o) tr)
    as [[e|v] tr'].
Qed.

Lemma resolve_requests (output_dir : option Path) (tr : Trace) :
  requests (snd (resolve_session_dir W output_dir tr)) = requests tr
  /\ nothing_left_open tr (snd (resolve_session_dir W output_dir tr)).
Proof.
  destruct (resolve_addition W output_dir tr) as (ev & -> & Ho & Hq). split.
  - now rewrite requests_app, Hq, app_nil_r.
  - now apply tidy_addition.
Qed.

End BulkRequests.

(** X1.  A generation batch sends exactly one request per prompt,
    each with the caller's model, and nothing else: the requests it
    adds to the trace are, up to their order,
    [images.generate(model, prompt)] for the prompts of the batch.
    No prompt is retried and none is skipped, whether its task
    succeeds or fails.  Nothing is said about the order in which the
    requests of different tasks go out. *)
Theorem generation_batch_sends_one_request_per_prompt :
  forall (W : World) (as_completed : forall T : Type, list T -> list T),
    (forall (T : Type) (l : list T), Permutation (as_completed T l) l) ->
    forall (svc : ImageService.OpenAIImageService) (prompts : list string)
           (model : string) (output_dir : option Path)
           (tr : Trace) (d : Path) (tr1 : Trace),
      (0 < ImageService.max_workers svc)%Z ->
      ImageService.resolve_session_dir W output_dir tr = (inr d, tr1) ->
      exists sent,
        requests
          (snd (ImageService.bulk_generate_images W as_completed svc
                  prompts model output_dir tr))
        = (requests tr ++ sent)%list
        /\ Permutation sent (map (ApiGenerate model) prompts)
        /\ backend_calls
             (snd (ImageService.bulk_generate_images W as_completed svc
                     prompts model output_dir tr))
           = backend_calls tr + List.length prompts.
Proof.
  intros W ac Hperm svc prompts model out tr d tr1 Hw Hd.
  set (tasks := ImageService.gen_tasks d model prompts).
  exists (map (ApiGenerate model) (map gen_task_prompt (ac _ tasks))).
  assert (Hord : Permutation (map gen_task_prompt (ac _ tasks)) prompts).
  { transitivity (map gen_task_prompt tasks).
    - apply Permutation_map, Hperm.
    - unfold tasks. now rewrite gen_tasks_prompts. }
  assert (Hmodel : Forall (fun t => gen_task_model t = model) (ac _ tasks)).
  { eapply Permutation_Forall; [symmetry; apply Hperm|].
    apply gen_tasks_models. }
  assert (Hflat : flat_map (fun t => [ApiGenerate (gen_task_model t)
                                        (gen_task_prompt t)]) (ac _ tasks)
                  = map (ApiGenerate model)
                        (map gen_task_prompt (ac _ tasks))).
  { clear -Hmodel. induction Hmodel as [|t l Ht _ IH]; simpl;
      [reflexivity | now rewrite Ht, IH]. }
  assert (Hbody : forall t tr0, exists r tr',
             collect_generate W t tr0 = (inr r, tr')
             /\ requests tr'
                = (requests tr0 ++ [ApiGenerate (gen_task_model t)
                                      (gen_task_prompt t)])%list).
  { intros t tr0.
    destruct (collect_generate_spec W t tr0)
      as (r & tr' & Hr & ev & -> & _ & Hq).
    exists r, (tr0 ++ ev)%list. split; [exact Hr|].
    now rewrite requests_app, Hq. }
  assert (Hreq : requests
             (snd (ImageService.bulk_generate_images W ac svc prompts model
                     out tr))
           = (requests tr ++ map (ApiGenerate model)
                               (map gen_task_prompt (ac _ tasks)))%list).
  { rewrite bulk_generate_cases, Hd.
    destruct (ImageService.max_workers svc <=? 0)%Z eqn:E;
      [apply Z.leb_le in E; lia|].
    pose proof (for_each_requests (collect_generate W) _ Hbody
                  (ac _ tasks) tr1) as Hloop.
    destruct (resolve_requests W out tr) as [Hq _].
    rewrite Hd in Hq. simpl in Hq. fold tasks.
    destruct (for_each (collect_generate W) (ac _ tasks) tr1)
      as [[e|rs] tr2]; simpl in *; now rewrite Hloop, Hq, Hflat. }
  split; [exact Hreq|]. split; [now apply Permutation_map|].
  rewrite !backend_calls_requests, Hreq, length_app, length_map.
  f_equal. now apply Permutation_length.
Qed.

Lemma generation_batch_sends_one_request_per_prompt_witness :
  exists sent,
    requests
      (snd (ImageService.bulk_generate_images studio last_first
              (ImageService.init 10)
              ["a cat meme"; "a dog meme"; "a fox meme"] "dall-e-3"
              (Some "out") []))
    = (requests [] ++ sent)%list
    /\ Permutation sent
         (map (ApiGenerate "dall-e-3")
              ["a cat meme"; "a dog meme"; "a fox meme"])
    /\ backend_calls
         (snd (ImageService.bulk_generate_images studio last_first
                 (ImageService.init 10)
                 ["a cat meme"; "a dog meme"; "a fox meme"] "dall-e-3"
                 (Some "out") []))
       = backend_calls [] + 3.
Proof.
  apply (generation_batch_sends_one_request_per_prompt studio last_first
           last_first_perm (ImageService.init 10)
           ["a cat meme"; "a dog meme"; "a fox meme"] "dall-e-3"
           (Some "out") [] "out" [FsMakedirs "out"]); reflexivity.
Defined.

(** X2.  Generation never leaves a file open.  Whatever the endpoint
    and the file system do, and whether the call returns or raises,
    every file opened by [generate_image], and so by a whole
    [bulk_generate_images] batch, has been closed when it ends. *)
Theorem generation_leaves_no_file_open :
  forall (W : World) (as_completed : forall T : Type, list T -> list T)
         (svc : ImageService.OpenAIImageService) (prompts : list string)
         (prompt model : string) (output_path : option string)
         (output_dir : option Path) (tr : Trace),
    nothing_left_open tr
      (snd (ImageService.generate_image W prompt model output_path tr))
    /\ nothing_left_open tr
         (snd (ImageService.bulk_generate_images W as_completed svc prompts
                 model output_dir tr)).
Proof.
  intros W ac svc prompts prompt model o out tr. split.
  - destruct (generate_image_addition W prompt model o tr)
      as (ev & -> & Ho & _).
    now apply tidy_addition.
  - rewrite bulk_generate_cases.
    destruct (resolve_requests W out tr) as [_ Hres].
    destruct (ImageService.resolve_session_dir W out tr) as [[e|d] tr1];
      simpl in Hres; [exact Hres|].
    destruct (ImageService.max_workers svc <=? 0)%Z; [exact Hres|].
    pose proof (for_each_leaves_nothing_open (collect_generate W)) as Hloop.
    specialize (Hloop ltac:(
      intros t tr0;
      destruct (collect_generate_spec W t tr0)
        as (r & tr' & Hr & ev & -> & Ho & _);
      rewrite Hr; now apply tidy_addition)
      (ac _ (ImageService.gen_tasks d model prompts)) tr1).
    destruct (for_each (collect_generate W) _ tr1) as [[e|rs] tr2];
      simpl in *; eapply nothing_left_open_trans; eauto.
Qed.

(** X3.  When every source image opens, [edit_image] sends exactly
    one request, with the caller's model and all the opened images,
    and every file it opened is closed when it ends, whether the
    endpoint answers, refuses, or the result cannot be saved. *)
Theorem edit_image_closes_what_it_opened :
  forall (W : World) (prompt : string) (image_paths : list string)
         (model : string) (output_path : option string)
         (tr : Trace) (images : list Handle) (tr1 : Trace),
    for_each (fun path => ImageService.py_open W path "rb") image_paths tr
    = (inr images, tr1) ->
    nothing_left_open tr
      (snd (ImageService.edit_image W prompt image_paths model output_path
              tr))
    /\ requests
         (snd (ImageService.edit_image W prompt image_paths model
                 output_path tr))
       = (requests tr ++ [ApiEdit model prompt images])%list
    /\ List.length images = List.length image_paths.
Proof.
  intros W prompt paths model o tr hs tr1 Hopen.
  destruct (edit_image_addition W prompt paths model o tr hs tr1 Hopen)
    as (ev & -> & Ho & Hq).
  split; [now apply tidy_addition|]. split.
  - now rewrite requests_app, Hq.
  - pose proof (open_loop_shape W paths tr) as Hs. rewrite Hopen in Hs.
    destruct Hs as [-> _]. apply length_seq.
Qed.

Lemma edit_image_closes_what_it_opened_witness :
  nothing_left_open []
    (snd (ImageService.edit_image studio "a dog meme" ["a.png"; "b.png"]
            "gpt-image-1" (Some "out/dog.png") []))
  /\ requests
       (snd (ImageService.edit_image studio "a dog meme" ["a.png"; "b.png"]
               "gpt-image-1" (Some "out/dog.png") []))
     = (requests [] ++ [ApiEdit "gpt-image-1" "a dog meme" [0; 1]])%list
  /\ List.length [0; 1] = List.length ["a.png"; "b.png"].
Proof.
  apply (edit_image_closes_what_it_opened studio "a dog meme"
           ["a.png"; "b.png"] "gpt-image-1" (Some "out/dog.png") []
           [0; 1] [FsOpen 0 "a.png" "rb"; FsOpen 1 "b.png" "rb"]).
  reflexivity.
Defined.

Section EditRequests.

Import ImageService.

Variable W : World.

Lemma collect_edit_sent (t : EditTask) (tr : Trace) :
  exists r tr' sent,
    collect_edit W t tr = (inr r, tr')
    /\ requests tr' = (requests tr ++ sent)%list
    /\ sends_for t sent.
Proof.
  destruct t as [[[prompt paths] i] o].
  unfold collect_edit, try_except. rewrite worker_edit_eq.
  destruct (for_each (fun path => py_open W path "rb") paths tr)
    as [[e|hs] tr1] eqn:Hopen.
  - destruct (edit_image_fails_before_request W prompt paths default_model
                (Some o) tr e tr1 Hopen) as [-> _].
    exists (failed_result i e), tr1, []. split; [reflexivity|].
    split; [|now left].
    pose proof (open_loop_shape W paths tr) as Hs. rewrite Hopen in Hs.
    destruct Hs as (k & _ & ->).
    rewrite requests_app.
    now rewrite (proj2 (open_events_handles _ _)).
  - destruct (edit_image_addition W prompt paths default_model (Some o) tr
                hs tr1 Hopen) as (ev & Hev & _ & Hq).
    destruct (edit_image W prompt paths default_model (Some o) tr)
      as [[e|v] tr'] eqn:Hrun; simpl in Hev; subst tr';
      do 3 eexists; (split; [reflexivity|]);
      (split; [now rewrite requests_app, Hq|]);
      right; eexists; (split; [reflexivity|]);
      exists default_model, hs; reflexivity.
Qed.

Lemma for_each_sent {A B} (f : A -> M B) (R : A -> list Event -> Prop) :
  (forall a tr, exists b tr' sent,
      f a tr = (inr b, tr')
      /\ requests tr' = (requests tr ++ sent)%list /\ R a sent) ->
  forall l tr, exists sents,
    Forall2 R l sents
    /\ requests (snd (for_each f l tr))
       = (requests tr ++ concat sents)%list.
Proof.
  intros Hf. induction l as [|a l IH]; intros tr; simpl.
  - exists []. split; [constructor | now rewrite app_nil_r].
  - unfold bind. destruct (Hf a tr) as (b & tr1 & sent & Hb & Hq & HR).
    rewrite Hb. destruct (IH tr1) as (sents & Hall & Hrest).
    exists (sent :: sents). split; [now constructor|].
    destruct (for_each f l tr1) as [[e|bs] tr2]; simpl in *;
      now rewrite Hrest, Hq, app_assoc.
Qed.

(** Requests sent one per task at most pair off with distinct
    prompts. *)
Lemma sent_pair_off (l : list EditTask) (sents : list (list Event)) :
  Forall2 sends_for l sents ->
  exists answered rest,
    Forall2 asks_for (concat sents) answered
    /\ Permutation (answered ++ rest) (map edit_task_prompt l).
Proof.
  induction 1 as [|t sent l sents [->|(e & -> & He)] _
                    (answered & rest & Hans & Hperm)].
  - exists [], []. split; constructor.
  - exists answered, (edit_task_prompt t :: rest). split; [exact Hans|].
    simpl. rewrite <- Hperm. symmetry. apply Permutation_middle.
  - exists (edit_task_prompt t :: answered), rest. split.
    + simpl. now constructor.
    + simpl. now constructor.
Qed.

Lemma edit_tasks_prompts (d : Path) (prompts : list string)
    (image_paths_list : list (list string)) :
  List.length prompts = List.length image_paths_list ->
  map edit_task_prompt (edit_tasks d prompts image_paths_list) = prompts.
Proof.
  unfold edit_tasks, enumerate. rewrite map_map. generalize 0.
  revert image_paths_list.
  induction prompts as [|p l IH]; intros [|ps pss] k Hlen; simpl in *;
    try discriminate; [reflexivity|].
  f_equal. apply IH. lia.
Qed.

End EditRequests.

(** X4.  An edit batch sends at most one request per prompt, on every
    path: the requests it adds to the trace are edit requests that
    pair off with distinct prompts of the batch, each request made
    for the prompt it is paired with, so that no prompt is asked for
    twice and there are never more requests than prompts. *)
Theorem edit_batch_sends_at_most_one_request_per_prompt :
  forall (W : World) (as_completed : forall T : Type, list T -> list T),
    (forall (T : Type) (l : list T), Permutation (as_completed T l) l) ->
    forall (svc : ImageService.OpenAIImageService) (prompts : list string)
           (image_paths_list : list (list string)) (model : string)
           (output_dir : option Path) (tr : Trace),
      exists sent answered rest,
        requests
          (snd (ImageService.bulk_edit_images W as_completed svc prompts
                  image_paths_list model output_dir tr))
        = (requests tr ++ sent)%list
        /\ Forall2 asks_for sent answered
        /\ Permutation (answered ++ rest) prompts
        /\ backend_calls
             (snd (ImageService.bulk_edit_images W as_completed svc prompts
                     image_paths_list model output_dir tr))
           <= backend_calls tr + List.length prompts.
Proof.
  intros W ac Hperm svc prompts ipl model out tr.
  assert (Hnone : forall tr',
             requests tr' = requests tr ->
             exists sent answered rest,
               requests tr' = (requests tr ++ sent)%list
               /\ Forall2 asks_for sent answered
               /\ Permutation (answered ++ rest) prompts
               /\ backend_calls tr' <= backend_calls tr + List.length prompts).
  { intros tr' Hq. exists [], [], prompts. rewrite app_nil_r.
    repeat split; auto. rewrite !backend_calls_requests, Hq. lia. }
  rewrite bulk_edit_cases.
  destruct (List.length prompts =? List.length ipl)%nat eqn:Hlen;
    [|now apply Hnone].
  apply Nat.eqb_eq in Hlen. cbn [negb].
  destruct (resolve_requests W out tr) as [Hq _].
  destruct (ImageService.resolve_session_dir W out tr) as [[e|d] tr1];
    simpl in Hq; [now apply Hnone|].
  destruct (ImageService.max_workers svc <=? 0)%Z; [now apply Hnone|].
  set (tasks := ImageService.edit_tasks d prompts ipl).
  destruct (for_each_sent (collect_edit W) sends_for (collect_edit_sent W)
              (ac _ tasks) tr1) as (sents & Hall & Hreq).
  destruct (sent_pair_off _ _ Hall) as (answered & rest & Hans & Hpair).
  assert (Hprompts : Permutation (answered ++ rest) prompts).
  { rewrite Hpair. rewrite <- (edit_tasks_prompts d prompts ipl Hlen).
    apply Permutation_map, Hperm. }
  exists (concat sents), answered, rest.
  assert (Hfinal : requests
            (snd (match for_each (collect_edit W) (ac _ tasks) tr1 with
                  | (inl e, tr2) => (inl e, tr2)
                  | (inr rs, tr2) =>
                      (inr (ImageService.sort_by_index rs), tr2)
                  end))
          = (requests tr ++ concat sents)%list).
  { destruct (for_each (collect_edit W) (ac _ tasks) tr1) as [[e|rs] tr2];
      simpl in *; now rewrite Hreq, Hq. }
  split; [exact Hfinal|]. split; [exact Hans|]. split; [exact Hprompts|].
  rewrite !backend_calls_requests, Hfinal, length_app.
  apply Nat.add_le_mono_l.
  rewrite (Forall2_length Hans), <- (Permutation_length Hprompts), length_app.
  lia.
Qed.

Lemma edit_batch_sends_at_most_one_request_per_prompt_witness :
  exists sent answered rest,
    requests
      (snd (ImageService.bulk_edit_images studio last_first
              (ImageService.init 10) ["add a hat"; "add a scarf"]
              [["a.png"]; ["b.png"; "missing.png"]] "gpt-image-1"
              (Some "out") []))
    = (requests [] ++ sent)%list
    /\ Forall2 asks_for sent answered
    /\ Permutation (answered ++ rest) ["add a hat"; "add a scarf"]
    /\ backend_calls
         (snd (ImageService.bulk_edit_images studio last_first
                 (ImageService.init 10) ["add a hat"; "add a scarf"]
                 [["a.png"]; ["b.png"; "missing.png"]] "gpt-image-1"
                 (Some "out") []))
       <= backend_calls [] + 2.
Proof.
  apply (edit_batch_sends_at_most_one_request_per_prompt studio last_first
           last_first_perm).
Defined.

(** X5.  The bulk functions of the service raise only before
    anything is dispatched.  If [bulk_generate_images] raises, the
    session directory could not be made or the pool has no worker; if
    [bulk_edit_images] raises, either of these or the lengths differ.
    In every such case no request has been sent. *)
Theorem bulk_raises_only_before_dispatch :
  forall (W : World) (as_completed : forall T : Type, list T -> list T)
         (svc : ImageService.OpenAIImageService) (prompts : list string)
         (image_paths_list : list (list string)) (model : string)
         (output_dir : option Path) (tr : Trace) (e : Exn) (tr' : Trace),
    (ImageService.bulk_generate_images W as_completed svc prompts model
       output_dir tr = (inl e, tr') ->
     requests tr' = requests tr
     /\ (ImageService.resolve_session_dir W output_dir tr = (inl e, tr')
         \/ (ImageService.max_workers svc <= 0)%Z
            /\ e = mkExn "ValueError" "max_workers must be greater than 0"))
    /\ (ImageService.bulk_edit_images W as_completed svc prompts
          image_paths_list model output_dir tr = (inl e, tr') ->
        requests tr' = requests tr
        /\ (List.length prompts <> List.length image_paths_list
            \/ ImageService.resolve_session_dir W output_dir tr
               = (inl e, tr')
            \/ (ImageService.max_workers svc <= 0)%Z
               /\ e = mkExn "ValueError"
                        "max_workers must be greater than 0")).
Proof.
  intros W ac svc prompts ipl model out tr e tr'.
  destruct (resolve_requests W out tr) as [Hq _]. split.
  - rewrite bulk_generate_cases.
    destruct (ImageService.resolve_session_dir W out tr) as [[e1|d] tr1];
      simpl in Hq.
    + intros [= <- <-]. auto.
    + destruct (ImageService.max_workers svc <=? 0)%Z eqn:E.
      * apply Z.leb_le in E. intros [= <- <-]. auto.
      * destruct (for_each_returns (collect_generate W) (fun _ _ => True))
          with (l := ac _ (ImageService.gen_tasks d model prompts))
               (tr := tr1) as (rs & tr2 & -> & _); [|discriminate].
        intros t tr0.
        destruct (collect_generate_spec W t tr0) as (r & tr3 & Hr & _).
        eauto.
  - rewrite bulk_edit_cases.
    destruct (List.length prompts =? List.length ipl)%nat eqn:El; simpl.
    2:{ apply Nat.eqb_neq in El. intros [= <- <-]. auto. }
    destruct (ImageService.resolve_session_dir W out tr) as [[e1|d] tr1];
      simpl in Hq.
    + intros [= <- <-]. auto.
    + destruct (ImageService.max_workers svc <=? 0)%Z eqn:E.
      * apply Z.leb_le in E. intros [= <- <-]. auto.
      * destruct (for_each_returns (collect_edit W) (fun _ _ => True))
          with (l := ac _ (ImageService.edit_tasks d prompts ipl))
               (tr := tr1) as (rs & tr2 & -> & _); [|discriminate].
        intros t tr0. unfold collect_edit, try_except.
        destruct (worker_edit_answers W t tr0) as (r & tr3 & -> & _).
        eauto.
Qed.

Lemma bulk_raises_only_before_dispatch_witness :
  requests [FsMakedirs "out"] = requests []
  /\ (ImageService.resolve_session_dir studio (Some "out") []
      = (inl (mkExn "ValueError" "max_workers must be greater than 0"),
         [FsMakedirs "out"])
      \/ (ImageService.max_workers (ImageService.init 0) <= 0)%Z
         /\ mkExn "ValueError" "max_workers must be greater than 0"
            = mkExn "ValueError" "max_workers must be greater than 0").
Proof.
  apply (bulk_raises_only_before_dispatch studio in_order
           (ImageService.init 0) ["a cat meme"] [] "gpt-image-1"
           (Some "out") []
           (mkExn "ValueError" "max_workers must be greater than 0")
           [FsMakedirs "out"]).
  reflexivity.
Defined.

(* ----------------------------------------------------------------- *)
(** ** Single calls *)

Lemma generate_image_inversion :
  forall (W : World) (prompt model : string) (output_path : option string)
         (tr : Trace) (v : string + Bytes) (tr' : Trace),
    ImageService.generate_image W prompt model output_path tr = (inr v, tr') ->
    exists image_base64 image_bytes,
      api_generate W tr model prompt = inr image_base64
      /\ b64decode W image_base64 = inr image_bytes
      /\ match v with
         | inl p =>
             truthy output_path = Some p
             /\ tr' = (tr ++ [ApiGenerate model prompt;
                              FsMakedirs (PyStr.dirname p);
                              FsOpen (List.length tr + 2) p "wb";
                              FsWrite (List.length tr + 2) image_bytes;
                              FsClose (List.length tr + 2)])%list
         | inr data =>
             truthy output_path = None
             /\ data = image_bytes
             /\ tr' = (tr ++ [ApiGenerate model prompt])%list
         end.
Proof.
  intros W prompt model o tr v tr'.
  unfold ImageService.generate_image, ImageService.images_generate,
    ImageService.base64_b64decode, ImageService.makedirs,
    ImageService.py_open, ImageService.py_write, ImageService.py_close,
    emit, try_finally, bind, ret.
  destruct (api_generate W tr model prompt) as [e|b64] eqn:Hapi;
    [discriminate|].
  destruct (b64decode W b64) as [e|bytes] eqn:Hdec; [discriminate|].
  destruct (truthy o) as [p|].
  2:{ intros [= <- <-]. exists b64, bytes. repeat split. exact Hdec. }
  destruct (fs_makedirs W _ _) as [e|]; [discriminate|].
  destruct (fs_open W _ _ _) as [e|]; [discriminate|].
  destruct (fs_write W _ _ _) as [e|]; [discriminate|].
  intros [= <- <-]. exists b64, bytes.
  repeat split; [exact Hdec|]. rewrite !length_app. simpl.
  rewrite <- !app_assoc. simpl.
  replace (List.length tr + 1 + 1) with (List.length tr + 2) by lia.
  reflexivity.
Qed.


(** X6.  [generate_image] returns a path only after it has sent one
    request, decoded the answer, made the parent directory and
    written exactly the decoded bytes to that path through a file it
    closed again; it returns bytes only when no output path was
    given, and then it has not touched the file system. *)
Theorem generate_image_returns_after_saving :
  forall (W : World) (prompt model : string) (output_path : option string)
         (tr : Trace) (v : string + Bytes) (tr' : Trace),
    ImageService.generate_image W prompt model output_path tr = (inr v, tr') ->
    exists image_base64 image_bytes,
      api_generate W tr model prompt = inr image_base64
      /\ b64decode W image_base64 = inr image_bytes
      /\ match v with
         | inl p =>
             truthy output_path = Some p
             /\ tr' = (tr ++ [ApiGenerate model prompt;
                              FsMakedirs (PyStr.dirname p);
                              FsOpen (List.length tr + 2) p "wb";
                              FsWrite (List.length tr + 2) image_bytes;
                              FsClose (List.length tr + 2)])%list
         | inr data =>
             truthy output_path = None
             /\ data = image_bytes
             /\ tr' = (tr ++ [ApiGenerate model prompt])%list
         end.
Proof.
  intros W prompt model o tr v tr'.
  unfold ImageService.generate_image, ImageService.images_generate,
    ImageService.base64_b64decode, ImageService.makedirs,
    ImageService.py_open, ImageService.py_write, ImageService.py_close,
    emit, try_finally, bind, ret.
  destruct (api_generate W tr model prompt) as [e|b64] eqn:Hapi;
    [discriminate|].
  destruct (b64decode W b64) as [e|bytes] eqn:Hdec; [discriminate|].
  destruct (truthy o) as [p|].
  2:{ intros [= <- <-]. exists b64, bytes. repeat split. exact Hdec. }
  destruct (fs_makedirs W _ _) as [e|]; [discriminate|].
  destruct (fs_open W _ _ _) as [e|]; [discriminate|].
  destruct (fs_write W _ _ _) as [e|]; [discriminate|].
  intros [= <- <-]. exists b64, bytes.
  repeat split; [exact Hdec|]. rewrite !length_app. simpl.
  rewrite <- !app_assoc. simpl.
  replace (List.length tr + 1 + 1) with (List.length tr + 2) by lia.
  reflexivity.
Qed.

Lemma generate_image_returns_after_saving_witness :
  exists image_base64 image_bytes,
    api_generate studio [] "gpt-image-1" "a cat meme" = inr image_base64
    /\ b64decode studio image_base64 = inr image_bytes
    /\ truthy (Some "out/cat.png") = Some "out/cat.png"
    /\ [ApiGenerate "gpt-image-1" "a cat meme"; FsMakedirs "out";
        FsOpen 2 "out/cat.png" "wb"; FsWrite 2 png_bytes; FsClose 2]
       = ([] ++ [ApiGenerate "gpt-image-1" "a cat meme";
                 FsMakedirs (PyStr.dirname "out/cat.png");
                 FsOpen (List.length (@nil Event) + 2) "out/cat.png" "wb";
                 FsWrite (List.length (@nil Event) + 2) image_bytes;
                 FsClose (List.length (@nil Event) + 2)])%list.
Proof.
  apply (generate_image_returns_after_saving studio "a cat meme"
           "gpt-image-1" (Some "out/cat.png") [] (inl "out/cat.png")
           [ApiGenerate "gpt-image-1" "a cat meme"; FsMakedirs "out";
            FsOpen 2 "out/cat.png" "wb"; FsWrite 2 png_bytes; FsClose 2]).
  reflexivity.
Defined.

(* ----------------------------------------------------------------- *)
(** ** Directories of output paths *)

Section Dirname.

Lemma rfind_slash_none_app (a b : string) :
  PyStr.rfind_slash a = None -> PyStr.rfind_slash b = None ->
  PyStr.rfind_slash (a ++ b) = None.
Proof.
  intros Ha Hb. induction a as [|c a IH]; simpl in *; [exact Hb|].
  destruct (PyStr.rfind_slash a); [discriminate|].
  rewrite IH by reflexivity. exact Ha.
Qed.

Lemma rfind_slash_digits (d : Decimal.uint) :
  PyStr.rfind_slash (NilEmpty.string_of_uint d) = None.
Proof. induction d; simpl; try rewrite IHd; reflexivity. Qed.

Lemma rfind_slash_zeros (k : nat) : PyStr.rfind_slash (PyStr.zeros k) = None.
Proof. induction k as [|k IH]; simpl; [|rewrite IH]; reflexivity. Qed.

Lemma file_name_no_slash (prefix : string) (i : nat) :
  PyStr.rfind_slash prefix = None ->
  PyStr.rfind_slash (file_name prefix i) = None.
Proof.
  intros Hp. unfold file_name, PyStr.fmt_03d, PyStr.str_of_nat.
  repeat apply rfind_slash_none_app;
    auto using rfind_slash_digits, rfind_slash_zeros.
Qed.

Lemma all_slashes_dir (d : string) :
  d <> "" -> PyStr.ends_with_slash d = false ->
  PyStr.all_slashes (d ++ "/") = false.
Proof.
  induction d as [|c d IH]; [easy|]. intros _ He. simpl in *.
  destruct d as [|c' d'].
  - simpl. now rewrite He.
  - rewrite IH by (easy || exact He). apply andb_false_r.
Qed.

Lemma rstrip_slash_dir (d : string) :
  d <> "" -> PyStr.ends_with_slash d = false ->
  PyStr.rstrip_slash (d ++ "/") = d.
Proof.
  induction d as [|c d IH]; [easy|]. intros _ He.
  change (String c d ++ "/") with (String c (d ++ "/")).
  cbn [PyStr.rstrip_slash].
  change (String c (d ++ "/")) with (String c d ++ "/").
  rewrite all_slashes_dir by (easy || exact He).
  destruct d as [|c' d']; [reflexivity|].
  f_equal. apply IH; [easy | exact He].
Qed.

Lemma dirname_of_joined (d name : string) :
  d <> "" -> PyStr.ends_with_slash d = false ->
  PyStr.rfind_slash name = None ->
  PyStr.dirname (d ++ "/" ++ name) = d.
Proof.
  intros Hd He Hn. unfold PyStr.dirname.
  rewrite rfind_slash_app by exact Hn.
  assert (Hhead : substring 0 (S (String.length d)) (d ++ "/" ++ name)
                  = d ++ "/").
  { replace (S (String.length d)) with (String.length (d ++ "/"))
      by (rewrite append_length; simpl; lia).
    rewrite <- (substring_prefix (d ++ "/") name) at 2.
    now rewrite append_assoc. }
  rewrite Hhead, all_slashes_dir by assumption.
  now apply rstrip_slash_dir.
Qed.

End Dirname.

(** X7.  For a session directory in plain form (not empty, not ".",
    no trailing slash) and a prefix without a slash, the directory of
    every task's output path is the session directory itself: the
    [os.makedirs(os.path.dirname(output_path))] of each task re-makes
    that directory and no other, and cutting any task's path at its
    last slash gives it back. *)
Theorem task_directory_is_the_session_directory :
  forall (d : Path) (prefix : string) (i : nat),
    d <> "" ->
    String.eqb d "." = false ->
    PyStr.ends_with_slash d = false ->
    PyStr.rfind_slash prefix = None ->
    PyStr.dirname (path_for d prefix i) = d
    /\ PyStr.rsplit_slash_head (path_for d prefix i) = d.
Proof.
  intros d prefix i Hd Hdot He Hp.
  pose proof (file_name_no_slash prefix i Hp) as Hn.
  unfold path_for, path_div. rewrite Hdot, He. split.
  - now apply dirname_of_joined.
  - now apply rsplit_slash_head_app.
Qed.

Lemma task_directory_is_the_session_directory_witness :
  PyStr.dirname
    (path_for "generated_images/session_20240101_120000" "edited_image" 7)
  = "generated_images/session_20240101_120000"
  /\ PyStr.rsplit_slash_head
       (path_for "generated_images/session_20240101_120000" "edited_image" 7)
     = "generated_images/session_20240101_120000".
Proof.
  apply (task_directory_is_the_session_directory
           "generated_images/session_20240101_120000" "edited_image" 7);
    [discriminate | reflexivity ..].
Defined.

(* ----------------------------------------------------------------- *)
(** ** The tools *)

Section ToolChecks.

Variable W : World.

Lemma first_missing_find (paths : list string) (tr : Trace) :
  ImageTools.first_missing W paths tr
  = (inr (find (fun p => negb (fs_exists W tr p)) paths), tr).
Proof.
  induction paths as [|p paths IH]; simpl; [reflexivity|].
  unfold bind, ImageService.os_path_exists.
  destruct (fs_exists W tr p); simpl; [exact IH | reflexivity].
Qed.

Lemma find_first {A} (f : A -> bool) (l : list A) (q : A) :
  find f l = Some q ->
  exists before after,
    l = (before ++ q :: after)%list
    /\ f q = true
    /\ forall x, In x before -> f x = false.
Proof.
  induction l as [|x l IH]; simpl; [discriminate|].
  destruct (f x) eqn:E.
  - intros [= ->]. exists [], l. repeat split; auto. intros y [].
  - intros H. destruct (IH H) as (before & after & -> & Hq & Hb).
    exists (x :: before), after. repeat split; auto.
    intros y [<-|Hy]; auto.
Qed.

Lemma find_missing_first (paths : list string) (tr : Trace) (p : string) :
  In p paths -> fs_exists W tr p = false ->
  exists before q after,
    find (fun p => negb (fs_exists W tr p)) paths = Some q
    /\ paths = (before ++ q :: after)%list
    /\ fs_exists W tr q = false
    /\ forall p', In p' before -> fs_exists W tr p' = true.
Proof.
  intros Hin Hp.
  destruct (find (fun p => negb (fs_exists W tr p)) paths) as [q|] eqn:E.
  - destruct (find_first _ _ _ E) as (before & after & Hl & Hq & Hb).
    exists before, q, after. apply negb_true_iff in Hq.
    repeat split; auto.
    intros p' Hp'. apply Hb in Hp'. now apply negb_false_iff in Hp'.
  - apply (find_none _ _ E) in Hin. rewrite Hp in Hin. discriminate.
Qed.

Lemma first_missing_indexed_first (l : list (list string)) (k : nat)
    (tr : Trace) (i : nat) (paths : list string) (p : string) :
  nth_error l i = Some paths -> In p paths -> fs_exists W tr p = false ->
  exists j before q after,
    ImageTools.first_missing_indexed W (ImageService.enumerate_from k l) tr
    = (inr (Some (k + j, q)), tr)
    /\ nth_error l j = Some (before ++ q :: after)%list
    /\ fs_exists W tr q = false
    /\ (forall p', In p' before -> fs_exists W tr p' = true)
    /\ (forall j' ps p', j' < j -> nth_error l j' = Some ps -> In p' ps ->
                         fs_exists W tr p' = true).
Proof.
  revert k i. induction l as [|ps l IH]; intros k i Hn Hin Hp.
  - destruct i; discriminate.
  - simpl. unfold bind. rewrite first_missing_find.
    destruct (find (fun p => negb (fs_exists W tr p)) ps) as [q|] eqn:E.
    + destruct (find_first _ _ _ E) as (before & after & -> & Hq & Hb).
      apply negb_true_iff in Hq.
      exists 0, before, q, after. rewrite Nat.add_0_r.
      repeat split; auto.
      * intros p' Hp'. apply Hb in Hp'. now apply negb_false_iff in Hp'.
      * intros j' ps' p' Hj. lia.
    + destruct i as [|i].
      * injection Hn as ->. apply (find_none _ _ E) in Hin.
        rewrite Hp in Hin. discriminate.
      * destruct (IH (S k) i Hn Hin Hp)
          as (j & before & q & after & Hrun & Hnth & Hq & Hb & Hearlier).
        exists (S j), before, q, after. rewrite Hrun.
        replace (k + S j) with (S k + j) by lia.
        repeat split; auto.
        intros [|j'] ps' p' Hj Hnth' Hp'.
        -- injection Hnth' as <-. apply (find_none _ _ E) in Hp'.
           now apply negb_false_iff in Hp'.
        -- apply (Hearlier j' ps' p'); auto. lia.
Qed.

End ToolChecks.

(** X8.  Both edit tools look for every source image before they do
    anything else with it.  If some listed source image does not
    exist, [bulk_edit_images] of the tools returns an error record
    naming the first missing one in reading order (every image of an
    earlier prompt exists, and so does every earlier image of the
    same prompt) with its prompt index, and [edit_image] (given an
    output path) one naming the first missing one; in both cases
    nothing has happened: no directory, no opened file, no request. *)
Theorem edit_tools_report_the_first_missing_source :
  forall (W : World) (as_completed : forall T : Type, list T -> list T)
         (tr : Trace),
    (forall (input : ImageTools.BulkEditImagesInput) (i : nat)
            (paths : list string) (p : string),
        nth_error (ImageTools.be_image_paths_list input) i = Some paths ->
        In p paths ->
        fs_exists W tr p = false ->
        exists j before q after,
          ImageTools.bulk_edit_images W as_completed input tr
          = (inr (ImageTools.ToolError
                    ("Source image not found at prompt index "
                       ++ PyStr.str_of_nat j ++ ": " ++ q)), tr)
          /\ nth_error (ImageTools.be_image_paths_list input) j
             = Some (before ++ q :: after)%list
          /\ fs_exists W tr q = false
          /\ (forall p', In p' before -> fs_exists W tr p' = true)
          /\ (forall j' ps p',
                 j' < j ->
                 nth_error (ImageTools.be_image_paths_list input) j'
                 = Some ps ->
                 In p' ps -> fs_exists W tr p' = true))
    /\ (forall (input : ImageTools.EditImageInput) (out p : string),
           truthy (ImageTools.ei_output_path input) = Some out ->
           In p (ImageTools.ei_image_paths input) ->
           fs_exists W tr p = false ->
           exists before q after,
             ImageTools.edit_image W input tr
             = (inr (ImageTools.ToolError
                       ("Source image not found: " ++ q)), tr)
             /\ ImageTools.ei_image_paths input
                = (before ++ q :: after)%list
             /\ fs_exists W tr q = false
             /\ (forall p', In p' before -> fs_exists W tr p' = true)).
Proof.
  intros W ac tr. split.
  - intros input i paths p Hn Hin Hp.
    destruct (first_missing_indexed_first W _ 0 tr i paths p Hn Hin Hp)
      as (j & before & q & after & Hrun & Hnth & Hq & Hb & Hearlier).
    exists j, before, q, after.
    unfold ImageTools.bulk_edit_images, bind.
    unfold ImageService.enumerate. rewrite Hrun. simpl. auto.
  - intros input out p Hout Hin Hp.
    destruct (find_missing_first W _ tr p Hin Hp)
      as (before & q & after & Hfind & Hl & Hq & Hb).
    exists before, q, after. unfold ImageTools.edit_image. rewrite Hout.
    unfold bind, ret. rewrite first_missing_find, Hfind. auto.
Qed.

Lemma edit_tools_report_the_first_missing_source_witness :
  (exists j before q after,
      ImageTools.bulk_edit_images bare_studio in_order
        (ImageTools.mkBulkEditImagesInput ["one"; "two"; "three"]
           [["a.png"]; ["a.png"; "lost.png"; "gone.png"]; ["away.png"]]
           None "gpt-image-1") []
      = (inr (ImageTools.ToolError
                ("Source image not found at prompt index "
                   ++ PyStr.str_of_nat j ++ ": " ++ q)), [])
      /\ nth_error
           [["a.png"]; ["a.png"; "lost.png"; "gone.png"]; ["away.png"]] j
         = Some (before ++ q :: after)%list
      /\ fs_exists bare_studio [] q = false
      /\ (forall p', In p' before -> fs_exists bare_studio [] p' = true)
      /\ (forall j' ps p',
             j' < j ->
             nth_error
               [["a.png"]; ["a.png"; "lost.png"; "gone.png"]; ["away.png"]]
               j' = Some ps ->
             In p' ps -> fs_exists bare_studio [] p' = true))
  /\ (exists before q after,
         ImageTools.edit_image bare_studio
           (ImageTools.mkEditImageInput "add a hat"
              ["a.png"; "lost.png"; "gone.png"]
              (Some "out/hat.png") "gpt-image-1") []
         = (inr (ImageTools.ToolError ("Source image not found: " ++ q)), [])
         /\ ["a.png"; "lost.png"; "gone.png"] = (before ++ q :: after)%list
         /\ fs_exists bare_studio [] q = false
         /\ (forall p', In p' before -> fs_exists bare_studio [] p' = true)).
Proof.
  destruct (edit_tools_report_the_first_missing_source bare_studio in_order
              []) as [Hbulk Hone].
  split.
  - apply (Hbulk (ImageTools.mkBulkEditImagesInput ["one"; "two"; "three"]
                    [["a.png"]; ["a.png"; "lost.png"; "gone.png"];
                     ["away.png"]] None "gpt-image-1")
                 2 ["away.png"] "away.png");
      [reflexivity | simpl; auto | reflexivity].
  - apply (Hone (ImageTools.mkEditImageInput "add a hat"
                   ["a.png"; "lost.png"; "gone.png"] (Some "out/hat.png")
                   "gpt-image-1") "out/hat.png" "gone.png");
      [reflexivity | simpl; auto | reflexivity].
Defined.

(** The run of the tool on three missing files: the first one in
    reading order is the one named. *)
Example first_missing_source_run :
  fst (ImageTools.bulk_edit_images bare_studio in_order
         (ImageTools.mkBulkEditImagesInput ["one"; "two"; "three"]
            [["a.png"]; ["a.png"; "lost.png"; "gone.png"]; ["away.png"]]
            None "gpt-image-1") [])
  = inr (ImageTools.ToolError
           "Source image not found at prompt index 1: lost.png")
  /\ fst (ImageTools.edit_image bare_studio
            (ImageTools.mkEditImageInput "add a hat"
               ["a.png"; "lost.png"; "gone.png"]
               (Some "out/hat.png") "gpt-image-1") [])
     = inr (ImageTools.ToolError "Source image not found: lost.png").
Proof. split; reflexivity. Qed.

Lemma all_pass_iff_filter_keeps_all {A} (f : A -> bool) (l : list A) :
  forallb f l = true <-> List.length (filter f l) = List.length l.
Proof.
  induction l as [|x l IH]; simpl; [tauto|].
  pose proof (filter_length_le f l) as Hle.
  destruct (f x); simpl.
  - rewrite IH. split; [congruence | now injection 1].
  - split; [discriminate | lia].
Qed.

(** X10.  The counts of a bulk generation manifest agree with its
    flag: [output_paths] never has more entries than there were
    prompts, [success] is true exactly when it has one entry per
    prompt, and the message reports these two numbers. *)
Theorem manifest_counts_agree_with_success :
  forall (W : World) (as_completed : forall T : Type, list T -> list T),
    (forall (T : Type) (l : list T), Permutation (as_completed T l) l) ->
    forall (input : ImageTools.BulkGenerateImagesInput)
           (tr : Trace) (d : Path) (tr1 : Trace),
      ImageService.resolve_session_dir W
        (ImageTools.to_path W (ImageTools.bg_output_dir input)) tr
      = (inr d, tr1) ->
      exists m tr2,
        ImageTools.bulk_generate_images W as_completed input tr
        = (inr (ImageTools.ToolManifest m), tr2)
        /\ List.length (ImageTools.output_paths m)
           <= List.length (ImageTools.bg_prompts input)
        /\ (ImageTools.success m = true
            <-> List.length (ImageTools.output_paths m)
                = List.length (ImageTools.bg_prompts input))
        /\ ImageTools.message m
           = "Generated "
               ++ PyStr.str_of_nat (List.length (ImageTools.output_paths m))
               ++ " images out of "
               ++ PyStr.str_of_nat (List.length (ImageTools.bg_prompts input))
               ++ " requested".
Proof.
  intros W ac Hperm input tr d tr1 Hd.
  destruct (tool_bulk_generate_spec W ac Hperm input tr d tr1 Hd)
    as (rs & tr2 & Hrun & Hidx & _).
  do 2 eexists. split; [exact Hrun|].
  assert (Hlen : List.length rs = List.length (ImageTools.bg_prompts input)).
  { rewrite <- (length_map ImageService.index), Hidx. apply length_seq. }
  simpl. unfold ImageTools.successful_paths. rewrite length_map, <- Hlen.
  split; [apply filter_length_le|]. split; [|reflexivity].
  apply all_pass_iff_filter_keeps_all.
Qed.

Lemma manifest_counts_agree_with_success_witness :
  exists m tr2,
    ImageTools.bulk_generate_images studio last_first
      (ImageTools.mkBulkGenerateImagesInput
         ["a cat meme"; "a dog meme"; "a fox meme"] (Some "out")
         "gpt-image-1") []
    = (inr (ImageTools.ToolManifest m), tr2)
    /\ List.length (ImageTools.output_paths m) <= 3
    /\ (ImageTools.success m = true
        <-> List.length (ImageTools.output_paths m) = 3)
    /\ ImageTools.message m
       = "Generated "
           ++ PyStr.str_of_nat (List.length (ImageTools.output_paths m))
           ++ " images out of " ++ PyStr.str_of_nat 3 ++ " requested".
Proof.
  apply (manifest_counts_agree_with_success studio last_first last_first_perm
           (ImageTools.mkBulkGenerateImagesInput
              ["a cat meme"; "a dog meme"; "a fox meme"] (Some "out")
              "gpt-image-1") [] "out" [FsMakedirs "out"]).
  reflexivity.
Defined.

(* ----------------------------------------------------------------- *)
(** ** The agent *)

Section FallbackFacts.

Variable substantive : string -> bool.

Lemma collect_parts_spec (parts acc : list string) :
  Agent.collect_parts substantive parts acc
  = (acc ++ firstn (9 - List.length acc) (filter substantive parts))%list.
Proof.
  revert acc. induction parts as [|part rest IH]; intros acc;
    cbn [Agent.collect_parts filter].
  - now rewrite firstn_nil, app_nil_r.
  - destruct (9 <=? List.length acc)%nat eqn:E.
    + apply Nat.leb_le in E.
      replace (9 - List.length acc) with 0 by lia.
      cbn [firstn]. now rewrite app_nil_r.
    + apply Nat.leb_gt in E. destruct (substantive part); [|apply IH].
      rewrite IH, length_app. cbn [List.length].
      destruct (9 - List.length acc) as [|n] eqn:En; [lia|].
      replace (9 - (List.length acc + 1)) with n by lia.
      cbn [firstn]. now rewrite <- app_assoc.
Qed.

Lemma fill_generic_spec (fuel : nat) (acc : list string) :
  9 - List.length acc <= fuel ->
  Agent.fill_generic fuel acc
  = (acc ++ map generic_scene
              (seq (List.length acc + 1) (9 - List.length acc)))%list.
Proof.
  revert acc. induction fuel as [|fuel IH]; intros acc Hf;
    cbn [Agent.fill_generic].
  - replace (9 - List.length acc) with 0 by lia.
    cbn [seq map]. now rewrite app_nil_r.
  - destruct (List.length acc <? 9)%nat eqn:E.
    + apply Nat.ltb_lt in E.
      rewrite IH by (rewrite length_app; cbn [List.length]; lia).
      rewrite length_app. cbn [List.length].
      destruct (9 - List.length acc) as [|n] eqn:En; [lia|].
      replace (9 - (List.length acc + 1)) with n by lia.
      cbn [seq map]. rewrite <- app_assoc. cbn [app].
      now replace (S (List.length acc + 1)) with (List.length acc + 1 + 1)
        by lia.
    + apply Nat.ltb_ge in E.
      replace (9 - List.length acc) with 0 by lia.
      cbn [seq map]. now rewrite app_nil_r.
Qed.

End FallbackFacts.

(** X11.  The fallback of [analyze_story] always ends with exactly
    nine prompts: the first nine substantive parts of the answer, in
    order, and, when there are fewer, placeholders numbered from the
    first free position up to nine. *)
Theorem fallback_always_gives_nine_prompts :
  forall (substantive : string -> bool) (parts : list string),
    let kept := firstn 9 (filter substantive parts) in
    Agent.fallback_prompts substantive parts
    = (kept ++ map generic_scene
                 (seq (List.length kept + 1) (9 - List.length kept)))%list
    /\ List.length (Agent.fallback_prompts substantive parts) = 9.
Proof.
  intros substantive parts kept. unfold Agent.fallback_prompts.
  rewrite collect_parts_spec. cbn [app List.length].
  change (9 - 0) with 9. fold kept.
  assert (Hk : List.length kept <= 9) by apply firstn_le_length.
  rewrite fill_generic_spec by lia. split; [reflexivity|].
  rewrite length_app, length_map, length_seq. lia.
Qed.

Section AgentFacts.

Lemma filter_all {A} (f : A -> bool) (l : list A) :
  forallb f l = true -> filter f l = l.
Proof.
  induction l as [|x l IH]; simpl; [reflexivity|].
  destruct (f x); simpl; [|discriminate]. intros H. now rewrite IH.
Qed.

Lemma all_paths_of_a_clean_batch (d : Path) (prefix : string)
    (rs : list ImageService.TaskResult) (n : nat) :
  map ImageService.index rs = seq 0 n ->
  Forall (batch_record d prefix) rs ->
  forallb ImageService.success rs = true ->
  ImageTools.successful_paths rs
  = map (fun i => Some (path_for d prefix i)) (seq 0 n).
Proof.
  intros Hidx Hrec Hall. unfold ImageTools.successful_paths.
  rewrite filter_all by exact Hall. rewrite <- Hidx, map_map.
  apply map_ext_in. intros r Hr.
  rewrite Forall_forall in Hrec. rewrite forallb_forall in Hall.
  apply batch_record_success; auto.
Qed.

End AgentFacts.

(** X12.  The agent keeps the images of a batch only when every task
    succeeded.  [generate_meme_images] asks the bulk tool for the
    prompts of the state with no output directory; when the manifest
    that comes back has [success] true, [process_image_results] marks
    the state complete with one path per prompt, in prompt order, and
    the allocated session directory; when a single task failed, it
    marks the state as failed with "Unknown error" (the manifest
    carries no [error]) and records none of the images that were
    written. *)
Theorem agent_keeps_images_only_of_a_clean_batch :
  forall (W : World) (as_completed : forall T : Type, list T -> list T),
    (forall (T : Type) (l : list T), Permutation (as_completed T l) l) ->
    forall (json_loads : string -> Agent.Decoded) (stamp now : string)
           (state state' : Agent.AgentState) (tr : Trace) (d : Path)
           (tr1 : Trace) (m : ImageTools.Manifest) (tr2 : Trace)
           (content : string),
      Agent.generate_meme_images stamp state = Agent.Continue state' ->
      ImageService.resolve_session_dir W None tr = (inr d, tr1) ->
      ImageTools.bulk_generate_images W as_completed
        (ImageTools.mkBulkGenerateImagesInput (Agent.meme_prompts state)
           None "gpt-image-1") tr
      = (inr (ImageTools.ToolManifest m), tr2) ->
      json_loads content = Agent.ToolDict (ImageTools.ToolManifest m) ->
      let final :=
        Agent.process_image_results json_loads now state'
          [Agent.mkToolMsg "bulk_generate_images" content] in
      Agent.messages state'
      = (Agent.messages state
           ++ [Agent.AIMessage
                 "I'll generate meme images based on these prompts."
                 [Agent.mkToolCall ("call_" ++ stamp) "bulk_generate_images"
                    (ImageTools.mkBulkGenerateImagesInput
                       (Agent.meme_prompts state) None "gpt-image-1")]])%list
      /\ (ImageTools.success m = true ->
          Agent.status final = Agent.Complete
          /\ Agent.image_paths final
             = map (fun i => Some (path_for d "image" i))
                   (seq 0 (List.length (Agent.meme_prompts state)))
          /\ Agent.images_generated (Agent.metadata final)
             = Some (List.length (Agent.meme_prompts state))
          /\ Agent.md_session_dir (Agent.metadata final)
             = Some (ImageTools.session_dir m)
          /\ (PyStr.ends_with_slash (clock W tr) = false ->
              ImageTools.session_dir m = Some d))
      /\ (ImageTools.success m = false ->
          Agent.status final = Agent.Error
          /\ Agent.error final
             = Some "Failed to generate images: Unknown error"
          /\ Agent.image_paths final = Agent.image_paths state).
Proof.
  intros W ac Hperm json_loads stamp now state state' tr d tr1 m tr2 content
    Hgen Hd Hrun Hjson final.
  unfold Agent.generate_meme_images in Hgen.
  destruct (Agent.meme_prompts state) as [|p0 ps] eqn:Hprompts;
    [discriminate|].
  injection Hgen as <-.
  destruct (tool_bulk_generate_spec W ac Hperm
              (ImageTools.mkBulkGenerateImagesInput (p0 :: ps) None
                 "gpt-image-1") tr d tr1 Hd)
    as (rs & tr2' & Hrun' & Hidx & Hrec).
  rewrite Hrun in Hrun'. injection Hrun' as Hm _.
  cbn [ImageTools.bg_prompts ImageTools.bg_output_dir] in Hm, Hidx.
  change (ImageTools.to_path W None) with (@None Path) in Hm.
  assert (Hrep : reports_by_first_task d "image" (clock W tr)
                   (List.length (p0 :: ps)) m).
  { rewrite Hm.
    exact (manifest_reports_by_first_task W "Generated" _ "image" tr d tr1
             rs _ eq_refl Hd Hidx Hrec). }
  destruct Hrep as (_ & _ & _ & Hfirst).
  assert (Hflag : ImageTools.success m = forallb ImageService.success rs)
    by now rewrite Hm.
  assert (Hout : ImageTools.output_paths m = ImageTools.successful_paths rs)
    by now rewrite Hm.
  assert (Hres : ImageTools.results m = rs) by now rewrite Hm.
  clear Hm Hrun.
  split; [reflexivity|].
  subst final. unfold Agent.process_image_results.
  cbn [Agent.tm_content]. rewrite Hjson. cbn [Agent.get_success].
  split; intros Hs; rewrite Hs; cbn [negb].
  - cbn [Agent.status Agent.image_paths Agent.metadata
         Agent.images_generated Agent.md_session_dir Agent.get_output_paths
         Agent.get_session_dir].
    rewrite Hflag in Hs.
    assert (Hpaths : ImageTools.output_paths m
                     = map (fun i => Some (path_for d "image" i))
                           (seq 0 (List.length (p0 :: ps)))).
    { rewrite Hout. eapply all_paths_of_a_clean_batch; eauto. }
    repeat split.
    + exact Hpaths.
    + now rewrite Hpaths, length_map, length_seq.
    + intros Hstamp.
      destruct Hfirst as (r & rest & Hrs & _ & _ & Hdir);
        [simpl; lia|].
      rewrite Hres in Hrs. rewrite Hrs in Hs.
      destruct Hdir as (_ & _ & Hdir).
      * simpl in Hs. now apply andb_true_iff in Hs.
      * now apply Hdir.
  - repeat split.
Qed.

Lemma agent_keeps_images_only_of_a_clean_batch_witness :
  Agent.status
    (Agent.process_image_results
       (fun _ =>
          Agent.ToolDict
            (ImageTools.ToolManifest
               (ImageTools.mkManifest false
                  [ImageService.mkResult 0 true
                     (Some
                        "generated_images/session_20240101_120000/image_000.png")
                     None;
                   ImageService.mkResult 1 false None (Some "rate limited")]
                  [Some
                     "generated_images/session_20240101_120000/image_000.png"]
                  (Some "generated_images/session_20240101_120000")
                  "Generated 1 images out of 2 requested")))
       "2024-01-01 12:00:09"
       (Agent.mkAgentState "story"
          [Agent.AIMessage
             "I'll generate meme images based on these prompts."
             [Agent.mkToolCall "call_20240101120000" "bulk_generate_images"
                (ImageTools.mkBulkGenerateImagesInput
                   ["a cat meme"; "a dog meme"] None "gpt-image-1")]]
          ["a cat meme"; "a dog meme"] []
          (Agent.mkMetadata None None None None None None None None)
          Agent.InProgress None)
       [Agent.mkToolMsg "bulk_generate_images" "{...}"])
  = Agent.Error.
Proof.
  refine (proj1 (proj2 (proj2
    (agent_keeps_images_only_of_a_clean_batch studio last_first
       last_first_perm _ "20240101120000" "2024-01-01 12:00:09"
       (Agent.mkAgentState "story" [] ["a cat meme"; "a dog meme"] []
          (Agent.mkMetadata None None None None None None None None)
          Agent.InProgress None)
       _ [] "generated_images/session_20240101_120000"
       [FsMakedirs "generated_images/session_20240101_120000";
        FsMakedirs "generated_images/session_20240101_120000"]
       _ _ "{...}" eq_refl eq_refl eq_refl eq_refl)) eq_refl)).
Defined.

(* ----------------------------------------------------------------- *)
(** ** The story tool *)

Section StoryFacts.

Lemma read_str_of_nat (n : nat) : read_nat (PyStr.str_of_nat n) = Some n.
Proof.
  unfold read_nat, PyStr.str_of_nat. rewrite NilEmpty.usu. simpl.
  now rewrite DecimalNat.Unsigned.of_to.
Qed.

Lemma str_of_nat_inj (a b : nat) :
  PyStr.str_of_nat a = PyStr.str_of_nat b -> a = b.
Proof.
  intros H. apply (f_equal read_nat) in H.
  rewrite !read_str_of_nat in H. congruence.
Qed.

End StoryFacts.

(** X13.  [create_meme_prompts] returns exactly [num_memes]
    placeholder prompts, numbered from 1 in order and pairwise
    distinct; for a count of zero or less it returns none.  It
    reports success in every case. *)
Theorem create_meme_prompts_gives_num_memes_prompts :
  forall (input : StoryTools.StoryToMemePromptInput),
    let r := StoryTools.create_meme_prompts input in
    StoryTools.success r = true
    /\ List.length (StoryTools.prompts r)
       = Z.to_nat (StoryTools.num_memes input)
    /\ (forall i,
           i < Z.to_nat (StoryTools.num_memes input) ->
           nth_error (StoryTools.prompts r) i
           = Some ("Meme " ++ PyStr.str_of_nat (i + 1)
                     ++ " prompt would be generated here"))
    /\ NoDup (StoryTools.prompts r)
    /\ ((StoryTools.num_memes input <= 0)%Z -> StoryTools.prompts r = []).
Proof.
  intros input r. subst r. unfold StoryTools.create_meme_prompts,
    StoryTools.range. cbn [StoryTools.success StoryTools.prompts].
  split; [reflexivity|]. split; [now rewrite length_map, length_seq|].
  split; [|split].
  - intros i Hi. rewrite nth_error_map.
    rewrite nth_error_nth' with (d := 0) by (rewrite length_seq; exact Hi).
    rewrite seq_nth by exact Hi. reflexivity.
  - apply Finite.Injective_map_NoDup; [|apply seq_NoDup].
    intros a b H. apply append_inv_head in H.
    apply append_inv_tail in H. apply str_of_nat_inj in H. lia.
  - intros Hz. replace (Z.to_nat (StoryTools.num_memes input)) with 0 by lia.
    reflexivity.
Qed.

Lemma create_meme_prompts_gives_num_memes_prompts_witness :
  nth_error
    (StoryTools.prompts
       (StoryTools.create_meme_prompts
          (StoryTools.mkStoryToMemePromptInput "a story" 9%Z
             "funny and insightful" 20%Z))) 8
  = Some "Meme 9 prompt would be generated here"
  /\ StoryTools.prompts
       (StoryTools.create_meme_prompts
          (StoryTools.mkStoryToMemePromptInput "a story" (-2)%Z
             "funny and insightful" 20%Z))
     = [].
Proof.
  split.
  - apply (proj1 (proj2 (proj2
      (create_meme_prompts_gives_num_memes_prompts
         (StoryTools.mkStoryToMemePromptInput "a story" 9%Z
            "funny and insightful" 20%Z)))) 8).
    simpl. lia.
  - apply (proj2 (proj2 (proj2 (proj2
      (create_meme_prompts_gives_num_memes_prompts
         (StoryTools.mkStoryToMemePromptInput "a story" (-2)%Z
            "funny and insightful" 20%Z)))))).
    simpl. lia.
Defined.

(* ----------------------------------------------------------------- *)
(** ** Listed files were written *)

Section WrittenFiles.

Import ImageService.

Variable W : World.
Variable as_completed : forall T : Type, list T -> list T.

Lemma path_for_not_empty (d : Path) (prefix : string) (i : nat) :
  String.eqb (path_for d prefix i) "" = false.
Proof.
  apply String.eqb_neq. intros H. apply (f_equal String.length) in H.
  unfold path_for, file_name in H.
  rewrite path_div_prefix, !append_length in H.
  pose proof (fmt_03d_width i). simpl in H. lia.
Qed.

(** A loop whose body always returns and only appends: every result
    comes with the events its body appended, all of them in the
    final trace. *)
Lemma for_each_segments {A B} (f : A -> M B) (P : A -> Prop)
    (R : B -> Trace -> Prop) :
  (forall a tr, P a ->
                exists b ev, f a tr = (inr b, (tr ++ ev)%list) /\ R b ev) ->
  forall l tr,
    Forall P l ->
    exists bs evs,
      for_each f l tr = (inr bs, (tr ++ evs)%list)
      /\ Forall (fun b => exists ev, R b ev /\ incl ev evs) bs.
Proof.
  intros Hf. induction l as [|a l IH]; intros tr Hl; simpl.
  - exists [], []. rewrite app_nil_r. split; [reflexivity | constructor].
  - inversion Hl as [|? ? Ha Hl']; subst.
    destruct (Hf a tr Ha) as (b & ev & Hb & HR).
    destruct (IH (tr ++ ev)%list Hl') as (bs & evs & Hbs & Hall).
    exists (b :: bs), (ev ++ evs)%list. unfold bind. rewrite Hb, Hbs.
    rewrite app_assoc. split; [reflexivity|]. constructor.
    + exists ev. split; [exact HR | now apply incl_appl].
    + eapply Forall_impl; [|exact Hall].
      intros b' (ev' & HR' & Hin). exists ev'.
      split; [exact HR' | now apply incl_appr].
Qed.

Lemma collect_generate_saved (d : Path) (t : GenTask) (tr : Trace) :
  snd t = path_for d "image" (gen_task_index t) ->
  exists r ev,
    collect_generate W t tr = (inr r, (tr ++ ev)%list) /\ saved r ev.
Proof.
  destruct t as [[[prompt model] i] o]. simpl. intros ->.
  unfold collect_generate, try_except. rewrite worker_generate_eq.
  destruct (generate_image_addition W prompt model
              (Some (path_for d "image" i)) tr) as (ev & Hev & _).
  destruct (generate_image W prompt model (Some (path_for d "image" i)) tr)
    as [[e|v] tr'] eqn:Hrun; simpl in Hev; subst tr'.
  - exists (failed_result i e), ev. split; [reflexivity|].
    intros Hs. discriminate.
  - exists (ok_result i (path_for d "image" i)), ev.
    split; [reflexivity|]. intros _.
    destruct (generate_image_inversion W prompt model _ tr v _ Hrun)
      as (b64 & bytes & _ & _ & Hv).
    unfold truthy in Hv. rewrite path_for_not_empty in Hv.
    destruct v as [p|data]; [|destruct Hv; discriminate].
    destruct Hv as [[= <-] Htr]. apply app_inv_head in Htr. subst ev.
    exists (path_for d "image" i). split; [reflexivity|].
    exists (List.length tr + 2), bytes. simpl. auto 10.
Qed.

Lemma written_in_more (ev ev' : Trace) (p : string) :
  incl ev ev' -> written_in ev p -> written_in ev' p.
Proof.
  intros Hin (h & data & Ho & Hw & Hc). exists h, data. auto.
Qed.

End WrittenFiles.

(** X14.  Every path a bulk generation manifest lists was really
    written: for each entry of [output_paths] the trace of the batch
    holds the opening of that file for writing, a write to it, and
    its closing. *)
Theorem listed_outputs_were_written :
  forall (W : World) (as_completed : forall T : Type, list T -> list T),
    (forall (T : Type) (l : list T), Permutation (as_completed T l) l) ->
    forall (input : ImageTools.BulkGenerateImagesInput)
           (tr : Trace) (d : Path) (tr1 : Trace),
      ImageService.resolve_session_dir W
        (ImageTools.to_path W (ImageTools.bg_output_dir input)) tr
      = (inr d, tr1) ->
      exists m tr2,
        ImageTools.bulk_generate_images W as_completed input tr
        = (inr (ImageTools.ToolManifest m), tr2)
        /\ forall p, In (Some p) (ImageTools.output_paths m) ->
                     written_in tr2 p.
Proof.
  intros W ac Hperm input tr d tr1 Hd.
  set (tasks := ImageService.gen_tasks d (ImageTools.bg_model input)
                  (ImageTools.bg_prompts input)).
  assert (Htasks : Forall
            (fun t => snd t = path_for d "image"
                                (ImageService.gen_task_index t))
            (ac _ tasks)).
  { eapply Permutation_Forall; [symmetry; apply Hperm|].
    apply gen_tasks_path. }
  destruct (for_each_segments (collect_generate W) _ saved
              (fun t tr0 Ht => collect_generate_saved W d t tr0 Ht)
              (ac _ tasks) tr1 Htasks) as (rs & evs & Hloop & Hsaved).
  unfold ImageTools.bulk_generate_images, bind.
  rewrite bulk_generate_cases, Hd. cbn [ImageService.max_workers
    ImageTools.image_service ImageService.init].
  change (Z.min 10 10 <=? 0)%Z with false. cbv iota.
  fold tasks. rewrite Hloop.
  do 2 eexists. split; [reflexivity|].
  intros p Hp. cbn [ImageTools.output_paths ImageTools.manifest] in Hp.
  unfold ImageTools.successful_paths in Hp.
  apply in_map_iff in Hp as (r & Hout & Hr).
  apply filter_In in Hr as [Hr Hs].
  apply (Permutation_in _ (sort_by_index_perm rs)) in Hr.
  rewrite Forall_forall in Hsaved.
  destruct (Hsaved r Hr) as (ev & Hsv & Hincl).
  destruct (Hsv Hs) as (p' & Hp' & Hw).
  assert (p' = p) as -> by congruence.
  eapply written_in_more; [|exact Hw].
  intros e He. apply in_or_app. right. now apply Hincl.
Qed.

Lemma listed_outputs_were_written_witness :
  exists m tr2,
    ImageTools.bulk_generate_images studio last_first
      (ImageTools.mkBulkGenerateImagesInput
         ["a cat meme"; "a dog meme"; "a fox meme"] (Some "out")
         "gpt-image-1") []
    = (inr (ImageTools.ToolManifest m), tr2)
    /\ forall p, In (Some p) (ImageTools.output_paths m) ->
                 written_in tr2 p.
Proof.
  apply (listed_outputs_were_written studio last_first last_first_perm
           (ImageTools.mkBulkGenerateImagesInput
              ["a cat meme"; "a dog meme"; "a fox meme"] (Some "out")
              "gpt-image-1") [] "out" [FsMakedirs "out"]).
  reflexivity.
Defined.

(* ----------------------------------------------------------------- *)
(** ** The node that reads the tool's answer *)

Section MappingFacts.

Variable json_loads : string -> Agent.Decoded.

Lemma tool_messages_of_app (a b : list Agent.Message) :
  Agent.tool_messages_of (a ++ b)%list
  = (Agent.tool_messages_of a ++ Agent.tool_messages_of b)%list.
Proof.
  induction a as [|msg a IH]; simpl; [reflexivity|].
  destruct (Agent.named_bulk msg); simpl; now rewrite IH.
Qed.

Lemma tool_messages_of_none (msgs : list Agent.Message) :
  (forall m, In (Agent.ToolMessage m) msgs ->
             Agent.tm_name m <> "bulk_generate_images") ->
  Agent.tool_messages_of msgs = [].
Proof.
  induction msgs as [|msg msgs IH]; simpl; intros H; [reflexivity|].
  rewrite IH by (intros m Hm; apply H; now right).
  destruct msg as [role content | content calls | m]; simpl; try reflexivity.
  destruct (String.eqb (Agent.tm_name m) "bulk_generate_images") eqn:E;
    [|reflexivity].
  apply String.eqb_eq in E. exfalso. apply (H m); [now left | exact E].
Qed.

Lemma process_first_only (now : string) (state : Agent.AgentState)
    (m : Agent.ToolMsg) (rest : list Agent.ToolMsg) :
  Agent.process_image_results json_loads now state (m :: rest)
  = Agent.process_image_results json_loads now state [m].
Proof. reflexivity. Qed.

End MappingFacts.

(** X15.  Left to find the tool's answer itself, the node that
    processes the results reads the first message of the state that
    carries the name [bulk_generate_images] and no other: messages of
    other kinds and names before it are skipped and whatever follows
    it is ignored.  When the state holds no such message the node
    reports that no response was received and changes nothing else. *)
Theorem mapping_reads_the_first_bulk_tool_message :
  forall (json_loads : string -> Agent.Decoded) (now : string)
         (state : Agent.AgentState),
    (forall before m after,
        Agent.messages state
        = (before ++ Agent.ToolMessage m :: after)%list ->
        Agent.tm_name m = "bulk_generate_images" ->
        (forall m', In (Agent.ToolMessage m') before ->
                    Agent.tm_name m' <> "bulk_generate_images") ->
        Agent.process_image_results_mapping json_loads now state None
        = Agent.process_image_results json_loads now state [m])
    /\ ((forall m, In (Agent.ToolMessage m) (Agent.messages state) ->
                   Agent.tm_name m <> "bulk_generate_images") ->
        Agent.process_image_results_mapping json_loads now state None
        = Agent.with_error state
            "No response received from image generation tool").
Proof.
  intros json_loads now state. split.
  - intros before m after Hmsgs Hname Hbefore.
    unfold Agent.process_image_results_mapping.
    rewrite Hmsgs, tool_messages_of_app, (tool_messages_of_none before)
      by exact Hbefore.
    cbn [app Agent.tool_messages_of Agent.named_bulk].
    rewrite Hname. cbn [String.eqb].
    change (String.eqb "bulk_generate_images" "bulk_generate_images")
      with true.
    cbv iota. apply process_first_only.
  - intros Hnone. unfold Agent.process_image_results_mapping.
    now rewrite tool_messages_of_none.
Qed.

Lemma mapping_reads_the_first_bulk_tool_message_witness :
  Agent.process_image_results_mapping
    (fun _ => Agent.ToolDict (ImageTools.ToolError "quota exceeded"))
    "2024-01-01 12:00:09"
    (Agent.mkAgentState "story"
       [Agent.DictMessage "system" "You are a creative meme generator";
        Agent.AIMessage "I'll generate meme images based on these prompts." [];
        Agent.ToolMessage (Agent.mkToolMsg "generate_image" "{}");
        Agent.ToolMessage (Agent.mkToolMsg "bulk_generate_images" "{1}");
        Agent.ToolMessage (Agent.mkToolMsg "bulk_generate_images" "{2}")]
       ["a cat meme"] []
       (Agent.mkMetadata None None None None None None None None)
       Agent.InProgress None)
    None
  = Agent.process_image_results
      (fun _ => Agent.ToolDict (ImageTools.ToolError "quota exceeded"))
      "2024-01-01 12:00:09"
      (Agent.mkAgentState "story"
         [Agent.DictMessage "system" "You are a creative meme generator";
          Agent.AIMessage "I'll generate meme images based on these prompts."
            [];
          Agent.ToolMessage (Agent.mkToolMsg "generate_image" "{}");
          Agent.ToolMessage (Agent.mkToolMsg "bulk_generate_images" "{1}");
          Agent.ToolMessage (Agent.mkToolMsg "bulk_generate_images" "{2}")]
         ["a cat meme"] []
         (Agent.mkMetadata None None None None None None None None)
         Agent.InProgress None)
      [Agent.mkToolMsg "bulk_generate_images" "{1}"].
Proof.
  eapply (proj1 (mapping_reads_the_first_bulk_tool_message _ _ _)
            [Agent.DictMessage "system" "You are a creative meme generator";
             Agent.AIMessage
               "I'll generate meme images based on these prompts." [];
             Agent.ToolMessage (Agent.mkToolMsg "generate_image" "{}")]
            (Agent.mkToolMsg "bulk_generate_images" "{1}")
            [Agent.ToolMessage
               (Agent.mkToolMsg "bulk_generate_images" "{2}")]).
  - reflexivity.
  - reflexivity.
  - intros m' [H|[H|[H|[]]]]; try discriminate.
    injection H as <-. discriminate.
Defined.
